(** * torch/utils/data/decorator.py

    A shallow embedding of the decorators of [torch.utils.data.decorator]
    and the properties they satisfy.

    The module is Python glue code: it reads and writes one global flag,
    mutates attributes of objects that are shared by reference, raises
    exceptions, and calls into code that lives elsewhere (the decorated
    classes and functions, [IterDataPipe.register_datapipe_as_function],
    [inspect.signature], [typing.get_type_hints], the [issubtype] methods of
    [torch.utils.data.typing]).  The embedding therefore is a state-and-error
    monad over an explicit interpreter state, and everything that is called
    but not defined in decorator.py is a member of the [Host] class. *)

From stdpp Require Import base option list gmap strings fin_maps.
From Stdlib Require Import ZArith Lia.

Local Open Scope string_scope.
Local Open Scope list_scope.

(** ** Python objects *)

(** Addresses of mutable objects. *)
Abbreviation loc := nat.

(** A class object; [cls_name] is its [__name__]. *)
Record pyclass := { cls_name : string }.

(** A function object; [fn_name] is its [__name__], [fn_id] tells apart
    functions that share a name. *)
Record pyfunc := { fn_name : string; fn_id : nat }.

Inductive value :=
| VNone
| VBool (b : bool)
| VInt (n : Z)
| VStr (s : string)
| VClass (c : pyclass)              (* a class: [isinstance(v, Type)] *)
| VFunction (f : pyfunc)            (* a plain function *)
| VNonDeterministic (l : loc)       (* an instance of [non_deterministic] *)
| VMethod (self : value) (name : string)  (* a bound method, [__self__ = self] *)
| VInstance (l : loc)               (* an instance of a host class *)
| VObject (id : nat).               (* any other object *)

(** Keyword arguments, in call order. *)
Abbreviation kwargs := (list (string * value)).

(** The attributes of a [non_deterministic] instance.  [cls] has the class
    level default [None]; [deterministic_fn] is only annotated, so it is
    absent until [__init__] assigns it. *)
Record non_deterministic := {
  cls : option pyclass;
  deterministic_fn : option value
}.

(** An instance of a host class: its class and its [type] attribute. *)
Record instance := {
  class_of : pyclass;
  type : value
}.

(** A type hint as [construct_time_validation] looks at it: either an
    instance of [_DataPipeMeta], of which only the [type] attribute is read,
    or anything else. *)
Inductive hint :=
| HintDataPipe (hint_type : value)
| HintOther.

(** ** Interpreter state *)

Record World := {
  _determinism : bool;                         (* the module global *)
  nd_objects : gmap loc non_deterministic;     (* [non_deterministic] instances *)
  instances : gmap loc instance;               (* instances of host classes *)
  functions : gmap string value                (* [IterDataPipe.functions] *)
}.

Definition set_determinism (b : bool) (w : World) : World :=
  {| _determinism := b; nd_objects := nd_objects w;
     instances := instances w; functions := functions w |}.

Definition set_nd_objects (m : gmap loc non_deterministic) (w : World) : World :=
  {| _determinism := _determinism w; nd_objects := m;
     instances := instances w; functions := functions w |}.

Definition set_instances (m : gmap loc instance) (w : World) : World :=
  {| _determinism := _determinism w; nd_objects := nd_objects w;
     instances := m; functions := functions w |}.

Definition set_functions (m : gmap string value) (w : World) : World :=
  {| _determinism := _determinism w; nd_objects := nd_objects w;
     instances := instances w; functions := m |}.

(** ** Exceptions *)

(** An argument of [str.format]. *)
Inductive fmt_arg :=
| FStr (s : string)          (* a string, e.g. a [__name__] *)
| FValue (v : value)         (* [str(v)] *)
| FTypeOf (v : value).       (* [str(type(v))] *)

(** An exception raised inside host code. *)
Record host_exn := { exn_class : string; exn_msg : string }.

(** [TypeError fmt args] is raised by a [raise TypeError(fmt.format(args))]
    of decorator.py (or by the interpreter while it evaluates an expression
    of decorator.py); [AttributeError] and [IndexError] come from attribute
    and index expressions of decorator.py; [Propagated] is an exception that
    was raised inside a host call and passes through unchanged. *)
Inductive exn :=
| TypeError (fmt : string) (args : list fmt_arg)
| AttributeError (obj : value) (attr : string)
| IndexError (msg : string)
| Propagated (e : host_exn).

Inductive result (A : Type) :=
| Ok (a : A)
| Raise (e : exn).
Arguments Ok {A} a.
Arguments Raise {A} e.

(** ** The state-and-error monad *)

Definition M (A : Type) : Type := World -> result A * World.

Definition ret {A} (a : A) : M A := fun w => (Ok a, w).
Definition raise {A} (e : exn) : M A := fun w => (Raise e, w).
Definition bind {A B} (m : M A) (k : A -> M B) : M B :=
  fun w => match m w with
           | (Ok a, w') => k a w'
           | (Raise e, w') => (Raise e, w')
           end.
Definition get : M World := fun w => (Ok w, w).
Definition modify (f : World -> World) : M unit := fun w => (Ok tt, f w).

Notation "'do' x <- m ; k" := (bind m (fun x => k))
  (at level 10, x name, m at level 100, k at level 200,
   format "'[v' 'do'  x  <-  m ; '/' k ']'").
Notation "'run' m ; k" := (bind m (fun _ => k))
  (at level 10, m at level 100, k at level 200,
   format "'[v' 'run'  m ; '/' k ']'").

(** The outcome is a [TypeError] of decorator.py. *)
Definition raises_TypeError {A} (r : result A * World) : Prop :=
  exists fmt args, fst r = Raise (TypeError fmt args).

(** Results of host code: a value or a host exception. *)
Definition lift_result {A} (r : A + host_exn) : result A :=
  match r with
  | inl a => Ok a
  | inr e => Raise (Propagated e)
  end.

Definition lift_host {A} (h : World -> (A + host_exn) * World) : M A :=
  fun w => let (r, w') := h w in (lift_result r, w').

Definition lift_pure {A} (r : A + host_exn) : M A :=
  fun w => (lift_result r, w).

(** ** The host: everything decorator.py calls but does not define *)

Class Host := {
  (** [issubclass(c, IterDataPipe)] *)
  issubclass_IterDataPipe : pyclass -> bool;
  (** [isinstance(v, Callable)] for instances of host classes *)
  host_callable : value -> bool;
  (** [v.__name__] for instances of host classes, when they have one *)
  host_name : value -> option string;
  (** [v.__self__] for instances of host classes, when they have one *)
  host_self : value -> option value;
  (** [IterDataPipe.register_datapipe_as_function(name, cls)] *)
  register_datapipe_as_function :
    string -> value -> World -> (unit + host_exn) * World;
  (** calling [v] with positional and keyword arguments: running a
      constructor or a function *)
  host_call :
    value -> list value -> kwargs -> World -> (value + host_exn) * World;
  (** [typing.get_type_hints(f)] *)
  get_type_hints : pyfunc -> gmap string hint + host_exn;
  (** the [arguments] of [inspect.signature(f).bind] on the call's
      arguments, in the order of the parameters *)
  signature_bind :
    pyfunc -> list value -> kwargs -> list (string * value) + host_exn;
  (** [t.issubtype(u)] *)
  issubtype : value -> value -> bool;
  (** [t != u] *)
  type_ne : value -> value -> bool;
  (** [copy.deepcopy(t)] *)
  deepcopy : value -> value;
  (** [t.issubtype_of_instance(d)] *)
  issubtype_of_instance : value -> value -> bool;
  (** the iterators that [__iter__] functions return *)
  iterator : Type;
  (** [iter(f(self))] *)
  host_iter : pyfunc -> value -> World -> (iterator + host_exn) * World;
  (** [next(it)]: [None] is [StopIteration], otherwise the element and the
      iterator advanced by one *)
  host_next :
    iterator -> World -> (option (value * iterator) + host_exn) * World
}.

(** ** Reflection primitives *)

(** [isinstance(v, Type)] *)
Definition isinstance_Type (v : value) : bool :=
  match v with VClass _ => true | _ => false end.

(** [isinstance(v, non_deterministic)] *)
Definition isinstance_non_deterministic (v : value) : bool :=
  match v with VNonDeterministic _ => true | _ => false end.

Section Decorators.
Context {H : Host}.

(** [v.__self__] when [hasattr(v, '__self__')]: bound methods have it. *)
Definition getattr_self (v : value) : option value :=
  match v with
  | VMethod self _ => Some self
  | VInstance _ | VObject _ => host_self v
  | _ => None
  end.

(** [isinstance(v, Callable)] *)
Definition isinstance_Callable (v : value) : bool :=
  match v with
  | VClass _ | VFunction _ | VNonDeterministic _ | VMethod _ _ => true
  | VInstance _ | VObject _ => host_callable v
  | VNone | VBool _ | VInt _ | VStr _ => false
  end.

(** [v.__name__] *)
Definition getattr_name (v : value) : M string :=
  match v with
  | VClass c => ret (cls_name c)
  | VFunction f => ret (fn_name f)
  | VMethod _ name => ret name
  | VInstance _ | VObject _ =>
      match host_name v with
      | Some n => ret n
      | None => raise (AttributeError v "__name__")
      end
  | _ => raise (AttributeError v "__name__")
  end.

(** [isinstance(v, IterDataPipe)] *)
Definition isinstance_IterDataPipe (v : value) (w : World) : bool :=
  match v with
  | VInstance l =>
      match instances w !! l with
      | Some o => issubclass_IterDataPipe (class_of o)
      | None => false
      end
  | _ => false
  end.

(** ** Functional API *)

Record functional_datapipe := { name : string }.

Definition functional_datapipe_init (name : string) : functional_datapipe :=
  {| name := name |}.

Definition functional_datapipe_call
    (self : functional_datapipe) (cls : value) : M value :=
  run match cls with
      | VClass c =>
          if negb (issubclass_IterDataPipe c)
          then raise (TypeError
                 "`functional_datapipe` can only decorate IterDataPipe" [])
          else ret tt
      | _ =>
          if negb (isinstance_non_deterministic cls) &&
             negb (match getattr_self cls with
                   | Some s => isinstance_non_deterministic s
                   | None => false
                   end)
          then raise (TypeError
                 "`functional_datapipe` can only decorate IterDataPipe" [])
          else ret tt
      end;
  run lift_host (register_datapipe_as_function (name self) cls);
  ret cls.

(** The two checks of [functional_datapipe.__call__] as one condition:
    what is let through to the registration. *)
Definition functional_datapipe_accepts (v : value) : bool :=
  match v with
  | VClass c => issubclass_IterDataPipe c
  | _ =>
      isinstance_non_deterministic v ||
      match getattr_self v with
      | Some s => isinstance_non_deterministic s
      | None => false
      end
  end.

(** ** Determinism *)

Record guaranteed_datapipes_determinism := { prev : bool }.

Definition guaranteed_datapipes_determinism_init
  : M guaranteed_datapipes_determinism :=
  do w <- get;
  let self := {| prev := _determinism w |} in
  run modify (set_determinism true);
  ret self.

Definition guaranteed_datapipes_determinism_enter
    (self : guaranteed_datapipes_determinism) : M unit :=
  ret tt.

(** [exc] is the exception that left the body, if any; [__exit__] returns
    [None], so that exception is not swallowed. *)
Definition guaranteed_datapipes_determinism_exit
    (self : guaranteed_datapipes_determinism) (exc : option exn) : M unit :=
  modify (set_determinism (prev self)).

(** [with guaranteed_datapipes_determinism(): body] *)
Definition with_guaranteed_datapipes_determinism {A} (body : M A) : M A :=
  do cm <- guaranteed_datapipes_determinism_init;
  run guaranteed_datapipes_determinism_enter cm;
  fun w =>
    match body w with
    | (Ok a, w') =>
        (run guaranteed_datapipes_determinism_exit cm None; ret a) w'
    | (Raise e, w') =>
        (run guaranteed_datapipes_determinism_exit cm (Some e); raise e) w'
    end.

(** [with cm: body], on a context manager that was constructed before:
    only [__enter__] and [__exit__] run. *)
Definition with_context {A} (cm : guaranteed_datapipes_determinism)
    (body : M A) : M A :=
  run guaranteed_datapipes_determinism_enter cm;
  fun w =>
    match body w with
    | (Ok a, w') =>
        (run guaranteed_datapipes_determinism_exit cm None; ret a) w'
    | (Raise e, w') =>
        (run guaranteed_datapipes_determinism_exit cm (Some e); raise e) w'
    end.

(** [n + 1] nested [with guaranteed_datapipes_determinism():] blocks
    around [body]. *)
Definition nested_with {A} (n : nat) (body : M A) : M A :=
  Nat.iter (S n) with_guaranteed_datapipes_determinism body.

(** ** [non_deterministic] *)

(** The attributes of the instance at [l]; an instance without attributes of
    its own sees the class level default [cls = None]. *)
Definition nd_attrs (l : loc) (w : World) : non_deterministic :=
  default {| cls := None; deterministic_fn := None |} (nd_objects w !! l).

Definition getattr_cls (l : loc) : M (option pyclass) :=
  fun w => (Ok (cls (nd_attrs l w)), w).

Definition setattr_cls (l : loc) (c : pyclass) : M unit :=
  modify (fun w =>
    set_nd_objects
      (<[l := {| cls := Some c;
                 deterministic_fn := deterministic_fn (nd_attrs l w) |}]>
         (nd_objects w)) w).

Definition getattr_deterministic_fn (l : loc) : M value :=
  fun w =>
    match deterministic_fn (nd_attrs l w) with
    | Some fn => (Ok fn, w)
    | None => (Raise (AttributeError (VNonDeterministic l) "deterministic_fn"), w)
    end.

(** Allocation of the instance that [__init__] has filled in. *)
Definition new_non_deterministic (o : non_deterministic) : M value :=
  fun w =>
    let l := fresh (dom (nd_objects w)) in
    (Ok (VNonDeterministic l), set_nd_objects (<[l := o]> (nd_objects w)) w).

(** [non_deterministic(arg)] *)
Definition non_deterministic_init (arg : value) : M value :=
  match arg with
  | VClass c =>
      if negb (issubclass_IterDataPipe c)
      then raise (TypeError
             "Only `IterDataPipe` can be decorated with `non_deterministic`, but {} is found"
             [FStr (cls_name c)])
      else new_non_deterministic {| cls := Some c; deterministic_fn := None |}
  | _ =>
      if isinstance_Callable arg
      then new_non_deterministic {| cls := None; deterministic_fn := Some arg |}
      else raise (TypeError "{} can not be decorated by non_deterministic"
                    [FValue arg])
  end.

(** [self.cls(args, kwargs)] *)
Definition call_cls (c : option pyclass) (args : list value) (kw : kwargs)
  : M value :=
  match c with
  | Some c => lift_host (host_call (VClass c) args kw)
  | None => raise (TypeError "'NoneType' object is not callable" [])
  end.

(** [self.cls.__name__] *)
Definition cls_dunder_name (c : option pyclass) : M string :=
  match c with
  | Some c => ret (cls_name c)
  | None => raise (AttributeError VNone "__name__")
  end.

(** [args[0]] *)
Definition args_0 (args : list value) : M value :=
  match args with
  | a :: _ => ret a
  | [] => raise (IndexError "tuple index out of range")
  end.

(** [isinstance(a, Type) and issubclass(a, IterDataPipe)], with the class
    that passed. *)
Definition IterDataPipe_subclass (a : value) : option pyclass :=
  match a with
  | VClass c => if issubclass_IterDataPipe c then Some c else None
  | _ => None
  end.

(** [non_deterministic.__call__], on the instance at [l] *)
Definition non_deterministic_call (l : loc) (args : list value) (kw : kwargs)
  : M value :=
  do c <- getattr_cls l;
  match c with
  | Some c =>
      do w <- get;
      if _determinism w
      then raise (TypeError
             "{} is non-deterministic, but you set 'guaranteed_datapipes_determinism'. You can turn off determinism for this DataPipe if that is acceptable for your application"
             [FStr (cls_name c)])
      else call_cls (Some c) args kw
  | None =>
      do a <- args_0 args;
      match IterDataPipe_subclass a with
      | None =>
          do n <- getattr_name a;
          raise (TypeError "Only `IterDataPipe` can be decorated, but {} is found"
                   [FStr n])
      | Some c =>
          run setattr_cls l c;
          ret (VMethod (VNonDeterministic l) "deterministic_wrapper_fn")
      end
  end.

(** [non_deterministic.deterministic_wrapper_fn], on the instance at [l] *)
Definition deterministic_wrapper_fn (l : loc) (args : list value) (kw : kwargs)
  : M value :=
  do fn <- getattr_deterministic_fn l;
  do res <- lift_host (host_call fn args kw);
  match res with
  | VBool res =>
      do w <- get;
      if _determinism w && res
      then
        do c <- getattr_cls l;
        do n <- cls_dunder_name c;
        raise (TypeError
          "{} is non-deterministic with the inputs, but you set 'guaranteed_datapipes_determinism'. You can turn off determinism for this DataPipe if that is acceptable for your application"
          [FStr n])
      else
        do c <- getattr_cls l;
        call_cls c args kw
  | _ =>
      raise (TypeError
        "deterministic_fn of `non_deterministic` decorator is required to return a boolean value, but {} is found"
        [FTypeOf res])
  end.

(** Calling a value: the two callables of this module run the code above,
    everything else runs in the host. *)
Definition call (v : value) (args : list value) (kw : kwargs) : M value :=
  match v with
  | VNonDeterministic l => non_deterministic_call l args kw
  | VMethod (VNonDeterministic l) "deterministic_wrapper_fn" =>
      deterministic_wrapper_fn l args kw
  | _ => lift_host (host_call v args kw)
  end.

(** ** Construct-time checking *)

(** [v.type] *)
Definition getattr_type (v : value) : M value :=
  fun w =>
    match v with
    | VInstance l =>
        match instances w !! l with
        | Some o => (Ok (type o), w)
        | None => (Raise (AttributeError v "type"), w)
        end
    | _ => (Raise (AttributeError v "type"), w)
    end.

(** [v.type = t], on the shared object: every alias of [v] sees it. *)
Definition set_type (l : loc) (t : value) (w : World) : World :=
  set_instances
    (alter (fun o => {| class_of := class_of o; type := t |}) l (instances w))
    w.

Definition setattr_type (v : value) (t : value) : M unit :=
  match v with
  | VInstance l => modify (set_type l t)
  | _ => raise (AttributeError v "type")
  end.

(** The closure of the [wrapper] that [construct_time_validation] returns:
    [f] (which also stands for its signature) and [hints]. *)
Record construct_wrapper := {
  construct_f : pyfunc;
  construct_hints : gmap string hint
}.

Definition construct_time_validation (f : pyfunc) : result construct_wrapper :=
  if negb (bool_decide (fn_name f = "__init__") ||
           bool_decide (fn_name f = "__new__"))
  then Raise (TypeError
         "Can not decorate function {} with 'construct_time_validation'"
         [FStr (fn_name f)])
  else
    match get_type_hints f with
    | inl hints => Ok {| construct_f := f; construct_hints := hints |}
    | inr e => Raise (Propagated e)
    end.

(** An argument [v] hinted with a pipe of type [hint_type] breaks one of the
    two conditions in [w]: it is no instance of [IterDataPipe], or its
    [type] is no subtype of [hint_type]. *)
Definition violates (hint_type v : value) (w : World) : bool :=
  negb (isinstance_IterDataPipe v w) ||
  match getattr_type v w with
  | (Ok t, _) => negb (issubtype t hint_type)
  | (Raise _, _) => true
  end.

(** The same, for a bound argument under the hints: arguments without a
    pipe hint break nothing. *)
Definition arg_violates (hints : gmap string hint) (w : World)
    (a : string * value) : bool :=
  match hints !! a.1 with
  | Some (HintDataPipe hint_type) => violates hint_type a.2 w
  | _ => false
  end.

(** A bound argument that the loop only reads: it has no pipe hint, or it
    holds both conditions and its [type] does not differ from the hint's. *)
Definition arg_settled (hints : gmap string hint) (w : World)
    (a : string * value) : bool :=
  match hints !! a.1 with
  | Some (HintDataPipe hint_type) =>
      negb (violates hint_type a.2 w) &&
      match getattr_type a.2 w with
      | (Ok t, _) => negb (type_ne t hint_type)
      | (Raise _, _) => false
      end
  | _ => true
  end.

(** The objects that the loop may retype: the instances bound to an
    argument with a pipe hint, in binding order. *)
Fixpoint hinted_pipes (hints : gmap string hint)
    (bound : list (string * value)) : list loc :=
  match bound with
  | [] => []
  | (n, v) :: bound =>
      match hints !! n, v with
      | Some (HintDataPipe _), VInstance l => l :: hinted_pipes hints bound
      | _, _ => hinted_pipes hints bound
      end
  end.

(** The body of the loop over [bound.arguments.items()]. *)
Definition validate_argument (hints : gmap string hint)
    (argument_name : string) (v : value) : M unit :=
  match hints !! argument_name with
  | Some (HintDataPipe hint_type) =>
      do w <- get;
      if negb (isinstance_IterDataPipe v w)
      then raise (TypeError
             "Expected argument '{}' as a IterDataPipe, but found {}"
             [FStr argument_name; FTypeOf v])
      else
        do t <- getattr_type v;
        if negb (issubtype t hint_type)
        then raise (TypeError
               "Expected type of argument '{}' as a subtype of hint {}, but {} found"
               [FStr argument_name; FValue hint_type; FValue t])
        else
          do t <- getattr_type v;
          if type_ne t hint_type
          then setattr_type v (deepcopy hint_type)
          else ret tt
  | _ => ret tt
  end.

Fixpoint validate_arguments (hints : gmap string hint)
    (bound : list (string * value)) : M unit :=
  match bound with
  | [] => ret tt
  | (argument_name, v) :: bound =>
      run validate_argument hints argument_name v;
      validate_arguments hints bound
  end.

(** [wrapper(args, kwargs)] of [construct_time_validation] *)
Definition construct_wrapper_call (wr : construct_wrapper)
    (args : list value) (kw : kwargs) : M value :=
  do bound <- lift_pure (signature_bind (construct_f wr) args kw);
  run validate_arguments (construct_hints wr) bound;
  lift_host (host_call (VFunction (construct_f wr)) args kw).

(** ** Runtime checking *)

Record runtime_wrapper := { runtime_f : pyfunc }.

Definition runtime_validation (f : pyfunc) : result runtime_wrapper :=
  if negb (bool_decide (fn_name f = "__iter__"))
  then Raise (TypeError
         "Can not decorate function {} with 'runtime_validation'"
         [FStr (fn_name f)])
  else Ok {| runtime_f := f |}.

(** The generator object made by calling [wrapper(self)].  [wrapper] has a
    [yield], so the call runs none of its body: the generator is created,
    is suspended at the [yield] between two elements, or is closed. *)
Inductive generator :=
| GenCreated (f : pyfunc) (self : value)
| GenSuspended (self : value) (it : iterator)
| GenClosed.

Definition runtime_wrapper_call (wr : runtime_wrapper) (self : value)
  : generator :=
  GenCreated (runtime_f wr) self.

(** What one [next] gives: an element, [StopIteration] ([None]), or an
    exception; together with the state the iterator is left in. *)
Definition stepper (G : Type) : Type :=
  G -> World -> (result (option value) * G) * World.

(** One turn of [for d in it: ...; yield d]. *)
Definition validated_next (self : value) (it : iterator)
  : World -> (result (option value) * generator) * World :=
  fun w =>
    match host_next it w with
    | (inl (Some (d, it')), w') =>
        match getattr_type self w' with
        | (Ok t, _) =>
            if negb (issubtype_of_instance t d)
            then (Raise (TypeError
                    "Expected an instance of subtype {}, but found {}"
                    [FValue t; FValue d]), GenClosed, w')
            else (Ok (Some d), GenSuspended self it', w')
        | (Raise e, _) => (Raise e, GenClosed, w')
        end
    | (inl None, w') => (Ok None, GenClosed, w')
    | (inr e, w') => (Raise (Propagated e), GenClosed, w')
    end.

(** [next(g)] on the generator of [wrapper] *)
Definition generator_next : stepper generator :=
  fun g w =>
    match g with
    | GenCreated f self =>
        match host_iter f self w with
        | (inl it, w') => validated_next self it w'
        | (inr e, w') => (Raise (Propagated e), GenClosed, w')
        end
    | GenSuspended self it => validated_next self it w
    | GenClosed => (Ok None, GenClosed, w)
    end.

(** [next(it)] on the iterator of the undecorated [f] *)
Definition iterator_next : stepper iterator :=
  fun it w =>
    match host_next it w with
    | (inl (Some (d, it')), w') => (Ok (Some d), it', w')
    | (inl None, w') => (Ok None, it, w')
    | (inr e, w') => (Raise (Propagated e), it, w')
    end.

(** How a loop over an iterator ended: the iterator was exhausted, an
    exception left the loop, or the consumer stopped asking. *)
Inductive ending :=
| Exhausted
| Failed (e : exn)
| Pending.

(** [for d in g: body(d)], for at most [n] elements.  The result lists
    every element with the state in which the loop body received it, then
    how the loop ended and the final state. *)
Fixpoint drive {G : Type} (next : stepper G) (body : value -> World -> World)
    (n : nat) (g : G) (w : World) : list (value * World) * ending * World :=
  match n with
  | O => ([], Pending, w)
  | S n =>
      match next g w with
      | (Ok (Some d), g', w') =>
          let '(ds, e, wf) := drive next body n g' (body d w') in
          ((d, w') :: ds, e, wf)
      | (Ok None, _, w') => ([], Exhausted, w')
      | (Raise e, _, w') => ([], Failed e, w')
      end
  end.

(** [self.type.issubtype_of_instance(d)], evaluated in [w] *)
Definition passes_validation (self d : value) (w : World) : bool :=
  match getattr_type self w with
  | (Ok t, _) => issubtype_of_instance t d
  | (Raise _, _) => false
  end.

End Decorators.

(** ** A small host, to run the decorators on

    Three pipe classes and one class that is no pipe; types are named by
    strings, [Any] above all of them; the registry refuses a name that is
    taken. *)
Module Example.

Definition IterDataPipe : pyclass := {| cls_name := "IterDataPipe" |}.
Definition Mapper : pyclass := {| cls_name := "Mapper" |}.
Definition Shuffler : pyclass := {| cls_name := "Shuffler" |}.
Definition Dataset : pyclass := {| cls_name := "Dataset" |}.

Definition is_pipe_class (c : pyclass) : bool :=
  bool_decide (cls_name c ∈ ["IterDataPipe"; "Mapper"; "Shuffler"]).

Definition register (name : string) (v : value) (w : World)
  : (unit + host_exn) * World :=
  match functions w !! name with
  | Some _ =>
      (inr {| exn_class := "Exception";
              exn_msg := "Unable to add DataPipe function name" |}, w)
  | None => (inl tt, set_functions (<[name := v]> (functions w)) w)
  end.

(** Functions, by [fn_id]. *)
Definition init_fn : pyfunc := {| fn_name := "__init__"; fn_id := 0 |}.
Definition iter_fn : pyfunc := {| fn_name := "__iter__"; fn_id := 1 |}.
Definition always : pyfunc := {| fn_name := "always"; fn_id := 2 |}.
Definition never : pyfunc := {| fn_name := "never"; fn_id := 3 |}.
Definition seven : pyfunc := {| fn_name := "seven"; fn_id := 4 |}.

(** Constructors make an instance whose element type is [Any]; [always],
    [never] and [seven] return [True], [False] and [7]; [__init__] returns
    [None]; nothing else can be called. *)
Definition run_call (v : value) (args : list value) (kw : kwargs) (w : World)
  : (value + host_exn) * World :=
  match v with
  | VClass c =>
      let l := fresh (dom (instances w)) in
      (inl (VInstance l),
       set_instances
         (<[l := {| class_of := c; type := VStr "Any" |}]> (instances w)) w)
  | VFunction f =>
      match fn_id f with
      | 0 => (inl VNone, w)
      | 2 => (inl (VBool true), w)
      | 3 => (inl (VBool false), w)
      | 4 => (inl (VInt 7), w)
      | _ => (inr {| exn_class := "NotImplementedError"; exn_msg := "" |}, w)
      end
  | _ => (inr {| exn_class := "TypeError";
                 exn_msg := "object is not callable" |}, w)
  end.

(** [__init__(self, source: IterDataPipe[Any], other: IterDataPipe[str])] *)
Definition hints_of (f : pyfunc) : gmap string hint + host_exn :=
  match fn_id f with
  | 0 => inl (<["source" := HintDataPipe (VStr "Any")]>
               (<["other" := HintDataPipe (VStr "str")]> ∅))
  | _ => inl ∅
  end.

Definition bind_args (f : pyfunc) (args : list value) (kw : kwargs)
  : list (string * value) + host_exn :=
  match fn_id f, args, kw with
  | 0, [self; source; other], [] =>
      inl [("self", self); ("source", source); ("other", other)]
  | _, _, _ =>
      inr {| exn_class := "TypeError"; exn_msg := "can not bind arguments" |}
  end.

Definition type_eqb (t u : value) : bool :=
  match t, u with
  | VStr a, VStr b => bool_decide (a = b)
  | _, _ => false
  end.

Definition subtype (t u : value) : bool :=
  type_eqb t u || type_eqb u (VStr "Any").

Definition instance_of (t d : value) : bool :=
  match t, d with
  | VStr "Any", _ => true
  | VStr "int", VInt _ => true
  | VStr "str", VStr _ => true
  | _, _ => false
  end.

(** Iterators are the lists of the elements still to come; [__iter__]
    produces 1, 2, the string x, 4. *)
Definition iter_of (f : pyfunc) (self : value) (w : World)
  : (list value + host_exn) * World :=
  (inl [VInt 1; VInt 2; VStr "x"; VInt 4], w).

Definition next_of (it : list value) (w : World)
  : (option (value * list value) + host_exn) * World :=
  match it with
  | [] => (inl None, w)
  | d :: it => (inl (Some (d, it)), w)
  end.

Definition host : Host := {|
  issubclass_IterDataPipe := is_pipe_class;
  host_callable := fun _ => false;
  host_name := fun _ => None;
  host_self := fun _ => None;
  register_datapipe_as_function := register;
  host_call := run_call;
  get_type_hints := hints_of;
  signature_bind := bind_args;
  issubtype := subtype;
  type_ne := fun t u => negb (type_eqb t u);
  deepcopy := fun t => t;
  issubtype_of_instance := instance_of;
  iterator := list value;
  host_iter := iter_of;
  host_next := next_of
|}.

(** The state of a fresh interpreter, and one in which three pipes exist:
    at 0 a [Mapper] of [int], at 1 a [Shuffler] of [int], at 2 a [Mapper]
    of [str]. *)
Definition w0 : World :=
  {| _determinism := false; nd_objects := ∅; instances := ∅; functions := ∅ |}.

Definition w_pipes : World :=
  set_instances
    (<[0 := {| class_of := Mapper; type := VStr "int" |}]>
       (<[1 := {| class_of := Shuffler; type := VStr "int" |}]>
          (<[2 := {| class_of := Mapper; type := VStr "str" |}]> ∅))) w0.

(** States reached by decorating: [non_deterministic(Mapper)], then
    [non_deterministic(always)], and the latter applied to [Mapper]. *)
Definition w_class : World :=
  snd (non_deterministic_init (H := host) (VClass Mapper) w0).

Definition w_function : World :=
  snd (non_deterministic_init (H := host) (VFunction always) w0).

Definition w_stored : World :=
  snd (non_deterministic_call (H := host) 0 [VClass Mapper] [] w_function).

(** The wrapper of [__init__], as [construct_time_validation] builds it. *)
Definition init_wrapper : construct_wrapper :=
  {| construct_f := init_fn;
     construct_hints := <["source" := HintDataPipe (VStr "Any")]>
                          (<["other" := HintDataPipe (VStr "str")]> ∅) |}.

(** [@functional_datapipe('map')] over [@non_deterministic(always)] over
    [class Mapper]. *)
Definition decorated_Mapper : M value :=
  do nd <- non_deterministic_init (H := host) (VFunction always);
  do wrapped <- call (H := host) nd [VClass Mapper] [];
  functional_datapipe_call (H := host) (functional_datapipe_init "map") wrapped.

End Example.

(** * Properties *)

(** Unfolding the monad. *)
Ltac unfold_monad :=
  unfold bind, ret, raise, get, modify, lift_host, lift_pure, lift_result in *.

Ltac run_monad := unfold_monad; simpl in *.

Section Properties.
Context {H : Host}.

(** ** The monad *)

Lemma bind_ok {A B} (m : M A) (k : A -> M B) w a w' :
  m w = (Ok a, w') -> bind m k w = k a w'.
Proof. intros Hm. unfold bind. now rewrite Hm. Qed.

Lemma bind_raise {A B} (m : M A) (k : A -> M B) w e w' :
  m w = (Raise e, w') -> bind m k w = (Raise e, w').
Proof. intros Hm. unfold bind. now rewrite Hm. Qed.

Lemma lift_host_never_TypeError {A} (h : World -> (A + host_exn) * World) w
    fmt args :
  fst (lift_host h w) <> Raise (TypeError fmt args).
Proof.
  unfold lift_host. destruct (h w) as [[a | e] w']; simpl; discriminate.
Qed.

(** ** Functional API *)

(** C1: for a class [c] that is a subclass of [IterDataPipe],
    [functional_datapipe(name)(c)] performs
    [IterDataPipe.register_datapipe_as_function(name, c)] and then returns
    [c] itself; an exception of the registration is the only other way
    out. *)
Theorem functional_datapipe_registers (name : string) (c : pyclass) (w : World) :
  issubclass_IterDataPipe c = true ->
  functional_datapipe_call (functional_datapipe_init name) (VClass c) w =
    match register_datapipe_as_function name (VClass c) w with
    | (inl _, w') => (Ok (VClass c), w')
    | (inr e, w') => (Raise (Propagated e), w')
    end.
Proof.
  intros Hsub. unfold functional_datapipe_call. rewrite Hsub. run_monad.
  destruct (register_datapipe_as_function name (VClass c) w) as [[[] | e] w'];
    reflexivity.
Qed.

(** C8: [functional_datapipe(name)(v)] raises [TypeError] and leaves the
    state, the registry with it, as it was when [v] is a class that is no
    subclass of [IterDataPipe], and when [v] is no class, no
    [non_deterministic] instance and has no [__self__] that is one.  The
    registration is never reached on these paths. *)
Theorem functional_datapipe_rejects (name : string) (v : value) (w : World) :
  (exists c, v = VClass c /\ issubclass_IterDataPipe c = false) \/
  (isinstance_Type v = false /\
   isinstance_non_deterministic v = false /\
   forall s, getattr_self v = Some s -> isinstance_non_deterministic s = false) ->
  functional_datapipe_call (functional_datapipe_init name) v w =
    (Raise (TypeError "`functional_datapipe` can only decorate IterDataPipe" []), w).
Proof.
  intros [(c & -> & Hsub) | (Hty & Hnd & Hself)].
  - unfold functional_datapipe_call. rewrite Hsub. reflexivity.
  - assert (Hchk : match getattr_self v with
                   | Some s => isinstance_non_deterministic s
                   | None => false
                   end = false).
    { destruct (getattr_self v) as [s |]; [now apply Hself | reflexivity]. }
    unfold functional_datapipe_call.
    destruct v; try discriminate Hty; try discriminate Hnd;
      rewrite Hchk; reflexivity.
Qed.

(** X1: a [non_deterministic] instance, and a bound method of one, pass
    the checks of [functional_datapipe]: the call is the registration of
    that very object, which is then returned. *)
Lemma functional_datapipe_accepts_non_deterministic (name : string) (v : value)
    (w : World) :
  isinstance_non_deterministic v = true \/
  (exists s, getattr_self v = Some s /\ isinstance_non_deterministic s = true) ->
  functional_datapipe_call (functional_datapipe_init name) v w =
    match register_datapipe_as_function name v w with
    | (inl _, w') => (Ok v, w')
    | (inr e, w') => (Raise (Propagated e), w')
    end.
Proof.
  intros Hacc.
  assert (Hchk : negb (isinstance_non_deterministic v) &&
                 negb (match getattr_self v with
                       | Some s => isinstance_non_deterministic s
                       | None => false
                       end) = false).
  { destruct Hacc as [Hnd | (s & Hs & Hnd)].
    - now rewrite Hnd.
    - rewrite Hs, Hnd. apply andb_false_r. }
  assert (Hcls : forall c, v <> VClass c).
  { intros c ->. destruct Hacc as [Hnd | (s & Hs & _)]; discriminate. }
  unfold functional_datapipe_call.
  destruct v; try (now destruct (Hcls c)); rewrite Hchk; run_monad;
    match goal with
    | |- context [register_datapipe_as_function ?n ?x ?w] =>
        destruct (register_datapipe_as_function n x w) as [[[] | e] w']
    end; reflexivity.
Qed.

(** ** Determinism *)

Lemma with_determinism_unfold {A} (body : M A) (w : World) :
  with_guaranteed_datapipes_determinism body w =
    let (r, w') := body (set_determinism true w) in
    (r, set_determinism (_determinism w) w').
Proof.
  unfold with_guaranteed_datapipes_determinism,
    guaranteed_datapipes_determinism_init,
    guaranteed_datapipes_determinism_enter,
    guaranteed_datapipes_determinism_exit.
  run_monad. destruct (body (set_determinism true w)) as [[a | e] w'];
    reflexivity.
Qed.

Lemma with_determinism_restores {A} (body : M A) (w : World) :
  _determinism (snd (with_guaranteed_datapipes_determinism body w)) =
  _determinism w.
Proof.
  rewrite with_determinism_unfold.
  destruct (body (set_determinism true w)) as [r w']. reflexivity.
Qed.

(** C2: the constructor stores the prior flag [p] and sets the flag;
    [__exit__] sets the flag to the stored value whether or not an exception
    left the body; so a [with] block runs its body under [True] and ends
    with the flag at [p], with the body's result or exception; any nesting
    of such blocks ends with the flag at [p] as well, and blocks nested
    inside a block (where the flag is [True]) end with the flag [True]. *)
Theorem determinism_round_trip {A} (body : M A) (w : World) :
  guaranteed_datapipes_determinism_init w =
    (Ok {| prev := _determinism w |}, set_determinism true w) /\
  (forall cm exc w',
     guaranteed_datapipes_determinism_exit cm exc w' =
       (Ok tt, set_determinism (prev cm) w')) /\
  with_guaranteed_datapipes_determinism body w =
    (let (r, w') := body (set_determinism true w) in
     (r, set_determinism (_determinism w) w')) /\
  (forall n, _determinism (snd (nested_with n body w)) = _determinism w) /\
  (forall n,
     _determinism (snd (nested_with n body (set_determinism true w))) = true).
Proof.
  split; [reflexivity |]. split; [reflexivity |].
  split; [apply with_determinism_unfold |].
  split; intros n; unfold nested_with; simpl;
    apply with_determinism_restores.
Qed.

(** ** [non_deterministic] *)

Lemma nd_attrs_insert l o w :
  nd_attrs l (set_nd_objects (<[l := o]> (nd_objects w)) w) = o.
Proof. unfold nd_attrs. simpl. now rewrite lookup_insert_eq. Qed.

(** Decorating a pipe class sets [cls]. *)
Lemma non_deterministic_init_class (c : pyclass) (w : World) :
  issubclass_IterDataPipe c = true ->
  exists l w',
    non_deterministic_init (VClass c) w = (Ok (VNonDeterministic l), w') /\
    nd_attrs l w' = {| cls := Some c; deterministic_fn := None |} /\
    _determinism w' = _determinism w.
Proof.
  intros Hsub. unfold non_deterministic_init, new_non_deterministic.
  rewrite Hsub. simpl. eexists _, _. split; [reflexivity |].
  split; [apply nd_attrs_insert | reflexivity].
Qed.

(** Decorating with a function leaves [cls] at [None]. *)
Lemma non_deterministic_init_function (fn : value) (w : World) :
  isinstance_Type fn = false ->
  isinstance_Callable fn = true ->
  exists l w',
    non_deterministic_init fn w = (Ok (VNonDeterministic l), w') /\
    nd_attrs l w' = {| cls := None; deterministic_fn := Some fn |} /\
    _determinism w' = _determinism w.
Proof.
  intros Hty Hcall. unfold non_deterministic_init, new_non_deterministic.
  destruct fn; simpl in *; try discriminate; try rewrite Hcall;
    (eexists _, _; split; [reflexivity |];
     split; [apply nd_attrs_insert | reflexivity]).
Qed.

Lemma non_deterministic_call_class (l : loc) (c : pyclass)
    (args : list value) (kw : kwargs) (w : World) :
  cls (nd_attrs l w) = Some c ->
  non_deterministic_call l args kw w =
    if _determinism w
    then (Raise (TypeError
      "{} is non-deterministic, but you set 'guaranteed_datapipes_determinism'. You can turn off determinism for this DataPipe if that is acceptable for your application"
      [FStr (cls_name c)]), w)
    else lift_host (host_call (VClass c) args kw) w.
Proof.
  intros Hc. unfold non_deterministic_call, getattr_cls.
  unfold bind at 1. rewrite Hc. unfold bind, get.
  destruct (_determinism w); reflexivity.
Qed.

Lemma non_deterministic_call_raises (l : loc) (c : pyclass)
    (args : list value) (kw : kwargs) (w : World) :
  cls (nd_attrs l w) = Some c ->
  raises_TypeError (non_deterministic_call l args kw w) <->
  _determinism w = true.
Proof.
  intros Hc. rewrite (non_deterministic_call_class l c args kw w Hc).
  unfold raises_TypeError. destruct (_determinism w); split.
  - reflexivity.
  - intros _. eexists _, _. reflexivity.
  - intros (fmt & fa & Hr). now apply lift_host_never_TypeError in Hr.
  - discriminate.
Qed.

(** C3: on an instance whose [cls] is set, the call raises its [TypeError]
    exactly when [_determinism] is [True] at the call; the state is then
    left as it was, so no pipe was constructed; under [False] the call is
    the call of [self.cls] on the same arguments, with the constructor's
    result or the constructor's exception.  Two such instances raise or not
    together: the flag decides, not the instance. *)
Theorem non_deterministic_class_call (l : loc) (c : pyclass)
    (args : list value) (kw : kwargs) (w : World) :
  cls (nd_attrs l w) = Some c ->
  (_determinism w = true ->
   non_deterministic_call l args kw w =
     (Raise (TypeError
        "{} is non-deterministic, but you set 'guaranteed_datapipes_determinism'. You can turn off determinism for this DataPipe if that is acceptable for your application"
        [FStr (cls_name c)]), w)) /\
  (_determinism w = false ->
   non_deterministic_call l args kw w =
     lift_host (host_call (VClass c) args kw) w) /\
  (raises_TypeError (non_deterministic_call l args kw w) <->
   _determinism w = true) /\
  (forall l' c' args' kw',
     cls (nd_attrs l' w) = Some c' ->
     (raises_TypeError (non_deterministic_call l' args' kw' w) <->
      raises_TypeError (non_deterministic_call l args kw w))).
Proof.
  intros Hcls.
  pose proof (non_deterministic_call_class l c args kw w Hcls) as Hcall.
  pose proof (non_deterministic_call_raises l c args kw w Hcls) as Hiff.
  split; [intros Hd; rewrite Hcall, Hd; reflexivity |].
  split; [intros Hd; rewrite Hcall, Hd; reflexivity |].
  split; [exact Hiff |].
  intros l' c' args' kw' Hcls'.
  pose proof (non_deterministic_call_raises l' c' args' kw' w Hcls') as Hiff'.
  tauto.
Qed.

(** C4: [deterministic_wrapper_fn] first runs [deterministic_fn] on the
    arguments (leaving the state [w1]); a result that is no [bool] raises
    [TypeError]; a result [True] under [_determinism] raises [TypeError];
    otherwise the result is the call of [self.cls] on the arguments.  Both
    errors leave [w1] as [deterministic_fn] left it: no pipe is
    constructed. *)
Theorem deterministic_wrapper_fn_checks (l : loc) (fn res : value)
    (c : pyclass) (args : list value) (kw : kwargs) (w w1 : World) :
  deterministic_fn (nd_attrs l w) = Some fn ->
  host_call fn args kw w = (inl res, w1) ->
  cls (nd_attrs l w1) = Some c ->
  ((forall b, res <> VBool b) ->
   deterministic_wrapper_fn l args kw w =
     (Raise (TypeError
        "deterministic_fn of `non_deterministic` decorator is required to return a boolean value, but {} is found"
        [FTypeOf res]), w1)) /\
  (res = VBool true -> _determinism w1 = true ->
   deterministic_wrapper_fn l args kw w =
     (Raise (TypeError
        "{} is non-deterministic with the inputs, but you set 'guaranteed_datapipes_determinism'. You can turn off determinism for this DataPipe if that is acceptable for your application"
        [FStr (cls_name c)]), w1)) /\
  (forall b, res = VBool b -> _determinism w1 && b = false ->
   deterministic_wrapper_fn l args kw w =
     lift_host (host_call (VClass c) args kw) w1).
Proof.
  intros Hfn Hres Hcls.
  assert (Hrun : deterministic_wrapper_fn l args kw w =
    match res with
    | VBool b =>
        if _determinism w1 && b
        then (Raise (TypeError
          "{} is non-deterministic with the inputs, but you set 'guaranteed_datapipes_determinism'. You can turn off determinism for this DataPipe if that is acceptable for your application"
          [FStr (cls_name c)]), w1)
        else lift_host (host_call (VClass c) args kw) w1
    | _ => (Raise (TypeError
        "deterministic_fn of `non_deterministic` decorator is required to return a boolean value, but {} is found"
        [FTypeOf res]), w1)
    end).
  { unfold deterministic_wrapper_fn, getattr_deterministic_fn.
    unfold bind at 1. rewrite Hfn.
    unfold bind at 1. unfold lift_host at 1. rewrite Hres. simpl.
    destruct res; try reflexivity.
    unfold bind at 1. unfold get at 1.
    destruct (_determinism w1 && b); unfold getattr_cls;
      unfold bind at 1; rewrite Hcls; reflexivity. }
  rewrite Hrun. split; [| split].
  - intros Hnb. destruct res; try reflexivity. now destruct (Hnb b).
  - intros -> ->. reflexivity.
  - intros b -> ->. reflexivity.
Qed.

(** The function form of [__call__]: a first argument that is a pipe class
    is stored in [cls], and the bound method is what comes back. *)
Lemma non_deterministic_call_stores (l : loc) (c : pyclass)
    (args : list value) (kw : kwargs) (w : World) :
  cls (nd_attrs l w) = None ->
  issubclass_IterDataPipe c = true ->
  exists w',
    non_deterministic_call l (VClass c :: args) kw w =
      (Ok (VMethod (VNonDeterministic l) "deterministic_wrapper_fn"), w') /\
    cls (nd_attrs l w') = Some c /\
    deterministic_fn (nd_attrs l w') = deterministic_fn (nd_attrs l w) /\
    _determinism w' = _determinism w /\
    instances w' = instances w.
Proof.
  intros Hnone Hsub. unfold non_deterministic_call, getattr_cls.
  unfold bind at 1. rewrite Hnone. simpl. unfold bind at 1. simpl.
  unfold IterDataPipe_subclass. rewrite Hsub.
  unfold setattr_cls. run_monad. eexists. split; [reflexivity |].
  rewrite nd_attrs_insert. simpl. auto.
Qed.

(** Once [cls] is stored, a further call of the instance is the call of a
    decorated class. *)
Lemma non_deterministic_call_twice (l : loc) (c : pyclass)
    (args args' : list value) (kw kw' : kwargs) (w w' : World) (r : value) :
  cls (nd_attrs l w) = None ->
  issubclass_IterDataPipe c = true ->
  non_deterministic_call l (VClass c :: args) kw w = (Ok r, w') ->
  non_deterministic_call l args' kw' w' =
    if _determinism w
    then (Raise (TypeError
      "{} is non-deterministic, but you set 'guaranteed_datapipes_determinism'. You can turn off determinism for this DataPipe if that is acceptable for your application"
      [FStr (cls_name c)]), w')
    else lift_host (host_call (VClass c) args' kw') w'.
Proof.
  intros Hnone Hsub Hcall.
  destruct (non_deterministic_call_stores l c args kw w Hnone Hsub)
    as (w2 & Hcall2 & Hcls & _ & Hdet & _).
  rewrite Hcall in Hcall2. injection Hcall2 as _ <-.
  rewrite (non_deterministic_call_class l c args' kw' w' Hcls), Hdet.
  reflexivity.
Qed.

(** A first argument that is no pipe class but has a [__name__] is
    refused with the [TypeError] of the function form. *)
Lemma non_deterministic_call_refuses (l : loc) (a : value) (n : string)
    (args : list value) (kw : kwargs) (w : World) :
  cls (nd_attrs l w) = None ->
  IterDataPipe_subclass a = None ->
  getattr_name a w = (Ok n, w) ->
  non_deterministic_call l (a :: args) kw w =
    (Raise (TypeError "Only `IterDataPipe` can be decorated, but {} is found"
              [FStr n]), w).
Proof.
  intros Hnone Hno Hname. unfold non_deterministic_call, getattr_cls.
  unfold bind at 1. rewrite Hnone. simpl. unfold bind at 1. simpl.
  rewrite Hno. unfold bind at 1. rewrite Hname. reflexivity.
Qed.

(** A first argument that is no pipe class and has no [__name__]: the
    error message can not be formatted, and the exception of the attribute
    access is what leaves the call. *)
Lemma non_deterministic_call_format_fails (l : loc) (a : value) (e : exn)
    (args : list value) (kw : kwargs) (w : World) :
  cls (nd_attrs l w) = None ->
  IterDataPipe_subclass a = None ->
  getattr_name a w = (Raise e, w) ->
  non_deterministic_call l (a :: args) kw w = (Raise e, w).
Proof.
  intros Hnone Hno Hname. unfold non_deterministic_call, getattr_cls.
  unfold bind at 1. rewrite Hnone. simpl. unfold bind at 1. simpl.
  rewrite Hno. unfold bind at 1. rewrite Hname. reflexivity.
Qed.

(** C10: in the function form ([cls] still [None]) a first argument that
    is an [int] is no class, and the call does not raise [TypeError]: the
    message is formatted with the argument's [__name__], an [int] has none,
    and [AttributeError] leaves the call. *)
Theorem non_deterministic_call_int (l : loc) (n : Z) (args : list value)
    (kw : kwargs) (w : World) :
  cls (nd_attrs l w) = None ->
  non_deterministic_call l (VInt n :: args) kw w =
    (Raise (AttributeError (VInt n) "__name__"), w) /\
  ~ raises_TypeError (non_deterministic_call l (VInt n :: args) kw w).
Proof.
  intros Hnone.
  assert (Hcall : non_deterministic_call l (VInt n :: args) kw w =
                  (Raise (AttributeError (VInt n) "__name__"), w)).
  { now apply non_deterministic_call_format_fails. }
  split; [exact Hcall |].
  rewrite Hcall. intros (fmt & fa & Hr). discriminate.
Qed.

(** ** Decoration time *)

(** C7: at decoration time [construct_time_validation] raises [TypeError]
    for a function named neither [__init__] nor [__new__], and
    [runtime_validation] raises [TypeError] for a function not named
    [__iter__]; a wrapper comes back only for the permitted names, and it
    wraps the decorated function. *)
Theorem validation_decorators_check_name (f : pyfunc) :
  (fn_name f <> "__init__" /\ fn_name f <> "__new__" ->
   construct_time_validation f =
     Raise (TypeError
       "Can not decorate function {} with 'construct_time_validation'"
       [FStr (fn_name f)])) /\
  (forall wr, construct_time_validation f = Ok wr ->
     (fn_name f = "__init__" \/ fn_name f = "__new__") /\
     construct_f wr = f /\ get_type_hints f = inl (construct_hints wr)) /\
  (fn_name f <> "__iter__" ->
   runtime_validation f =
     Raise (TypeError
       "Can not decorate function {} with 'runtime_validation'"
       [FStr (fn_name f)])) /\
  (forall wr, runtime_validation f = Ok wr ->
     fn_name f = "__iter__" /\ runtime_f wr = f) /\
  (fn_name f = "__iter__" -> runtime_validation f = Ok {| runtime_f := f |}).
Proof.
  unfold construct_time_validation, runtime_validation.
  split; [| split; [| split; [| split]]].
  - intros [Hi Hn]. rewrite !bool_decide_eq_false_2 by assumption.
    reflexivity.
  - intros wr Hwr. split.
    + destruct (bool_decide_reflect (fn_name f = "__init__")) as [Hi | Hi];
        [now left |].
      destruct (bool_decide_reflect (fn_name f = "__new__")) as [Hn | Hn];
        [now right | discriminate].
    + destruct (negb _); [discriminate |].
      destruct (get_type_hints f); [| discriminate].
      injection Hwr as <-. split; reflexivity.
  - intros Hi. rewrite bool_decide_eq_false_2 by assumption. reflexivity.
  - intros wr Hwr.
    destruct (bool_decide_reflect (fn_name f = "__iter__")) as [Hi | Hi];
      [| discriminate].
    injection Hwr as <-. split; [assumption | reflexivity].
  - intros Hi. rewrite bool_decide_eq_true_2 by assumption. reflexivity.
Qed.

(** ** Construct-time checking *)

Lemma isinstance_getattr_type (v : value) (w : World) :
  isinstance_IterDataPipe v w = true ->
  exists l o, v = VInstance l /\ instances w !! l = Some o /\
              issubclass_IterDataPipe (class_of o) = true /\
              getattr_type v w = (Ok (type o), w).
Proof.
  unfold isinstance_IterDataPipe, getattr_type.
  destruct v; try discriminate.
  destruct (instances w !! l) as [o |] eqn:Ho; [| discriminate].
  intros Hsub. exists l, o. auto.
Qed.

(** [violates], in words. *)
Lemma violates_true (ht v : value) (w : World) :
  violates ht v w = true <->
  isinstance_IterDataPipe v w = false \/
  exists t, getattr_type v w = (Ok t, w) /\ issubtype t ht = false.
Proof.
  unfold violates.
  destruct (isinstance_IterDataPipe v w) eqn:Hinst; simpl.
  - destruct (isinstance_getattr_type v w Hinst) as (l & o & _ & _ & _ & Hty).
    rewrite Hty. rewrite negb_true_iff. split.
    + intros Hsub. right. exists (type o). auto.
    + intros [Hf | (t & Ht & Hsub)]; [discriminate |].
      now injection Ht as <-.
  - split; auto.
Qed.

Lemma violates_false (ht v : value) (w : World) :
  violates ht v w = false <->
  isinstance_IterDataPipe v w = true /\
  exists t, getattr_type v w = (Ok t, w) /\ issubtype t ht = true.
Proof.
  unfold violates.
  destruct (isinstance_IterDataPipe v w) eqn:Hinst; simpl.
  - destruct (isinstance_getattr_type v w Hinst) as (l & o & _ & _ & _ & Hty).
    rewrite Hty. rewrite negb_false_iff. split.
    + intros Hsub. split; [reflexivity |]. exists (type o). auto.
    + intros [_ (t & Ht & Hsub)]. now injection Ht as <-.
  - split; [discriminate | intros [Hf _]; discriminate].
Qed.

Lemma validate_argument_unhinted (hints : gmap string hint) (n : string)
    (v : value) (w : World) :
  (forall ht, hints !! n <> Some (HintDataPipe ht)) ->
  validate_argument hints n v w = (Ok tt, w).
Proof.
  intros Hno. unfold validate_argument.
  destruct (hints !! n) as [[ht |] |]; try reflexivity.
  now destruct (Hno ht).
Qed.

Lemma validate_argument_violates (hints : gmap string hint) (n : string)
    (ht v : value) (w : World) :
  hints !! n = Some (HintDataPipe ht) ->
  violates ht v w = true ->
  exists fmt fa, validate_argument hints n v w = (Raise (TypeError fmt fa), w).
Proof.
  intros Hh Hv. unfold validate_argument. rewrite Hh.
  unfold bind at 1. unfold get at 1.
  destruct (isinstance_IterDataPipe v w) eqn:Hinst; simpl.
  - destruct (isinstance_getattr_type v w Hinst) as (l & o & _ & _ & _ & Hty).
    unfold violates in Hv. rewrite Hinst, Hty in Hv. simpl in Hv.
    rewrite (bind_ok _ _ _ _ _ Hty), Hv. eexists _, _. reflexivity.
  - eexists _, _. reflexivity.
Qed.

(** An argument that holds both conditions passes; its [type] is replaced
    by a copy of the hint's when the two differ. *)
Lemma validate_argument_passes (hints : gmap string hint) (n : string)
    (ht v : value) (w : World) :
  hints !! n = Some (HintDataPipe ht) ->
  violates ht v w = false ->
  exists l o, v = VInstance l /\ instances w !! l = Some o /\
    validate_argument hints n v w =
      (Ok tt, if type_ne (type o) ht then set_type l (deepcopy ht) w else w).
Proof.
  intros Hh Hv. apply violates_false in Hv as [Hinst (t & Ht & Hsub)].
  destruct (isinstance_getattr_type v w Hinst) as (l & o & -> & Ho & _ & Hty).
  rewrite Hty in Ht. injection Ht as <-.
  exists l, o. split; [reflexivity |]. split; [assumption |].
  unfold validate_argument. rewrite Hh.
  unfold bind at 1. unfold get at 1. rewrite Hinst. cbn [negb].
  rewrite (bind_ok _ _ _ _ _ Hty), Hsub. cbn [negb].
  rewrite (bind_ok _ _ _ _ _ Hty).
  destruct (type_ne (type o) ht); reflexivity.
Qed.

Lemma validate_arguments_app (hints : gmap string hint)
    (pre post : list (string * value)) (w : World) :
  validate_arguments hints (pre ++ post) w =
    match validate_arguments hints pre w with
    | (Ok _, w1) => validate_arguments hints post w1
    | (Raise e, w1) => (Raise e, w1)
    end.
Proof.
  revert w. induction pre as [| [n v] pre IH]; intros w; simpl.
  - reflexivity.
  - unfold bind.
    destruct (validate_argument hints n v w) as [[[] | e] w1];
      [apply IH | reflexivity].
Qed.

(** The loop stops at the first argument that breaks a condition, in the
    state the arguments before it left. *)
Lemma validate_arguments_raises (hints : gmap string hint)
    (pre post : list (string * value)) (n : string) (ht v : value)
    (w w1 : World) :
  validate_arguments hints pre w = (Ok tt, w1) ->
  hints !! n = Some (HintDataPipe ht) ->
  violates ht v w1 = true ->
  exists fmt fa,
    validate_arguments hints (pre ++ (n, v) :: post) w =
      (Raise (TypeError fmt fa), w1).
Proof.
  intros Hpre Hh Hv. rewrite validate_arguments_app, Hpre. simpl.
  destruct (validate_argument_violates hints n ht v w1 Hh Hv)
    as (fmt & fa & Hr).
  exists fmt, fa. now rewrite (bind_raise _ _ _ _ _ Hr).
Qed.

(** The loop runs to its end when no argument breaks a condition at its
    turn. *)
Lemma validate_arguments_passes (hints : gmap string hint)
    (bound : list (string * value)) (w : World) :
  (forall pre n v post ht w1,
     bound = pre ++ (n, v) :: post ->
     validate_arguments hints pre w = (Ok tt, w1) ->
     hints !! n = Some (HintDataPipe ht) ->
     violates ht v w1 = false) ->
  exists w', validate_arguments hints bound w = (Ok tt, w').
Proof.
  revert w. induction bound as [| [n v] bound IH]; intros w Hall.
  - exists w. reflexivity.
  - assert (Hhead : exists w1, validate_argument hints n v w = (Ok tt, w1)).
    { destruct (hints !! n) as [[ht |] |] eqn:Hh.
      - destruct (validate_argument_passes hints n ht v w Hh)
          as (l & o & _ & _ & Hok).
        + apply (Hall [] n v bound ht w); [reflexivity | reflexivity | exact Hh].
        + eexists. exact Hok.
      - exists w. apply validate_argument_unhinted. intros ht. rewrite Hh.
        discriminate.
      - exists w. apply validate_argument_unhinted. intros ht. rewrite Hh.
        discriminate. }
    destruct Hhead as (w1 & Hhead).
    destruct (IH w1) as (w' & Htail).
    + intros pre n' v' post ht w2 -> Hpre Hh.
      apply (Hall ((n, v) :: pre) n' v' post ht w2);
        [reflexivity | | exact Hh].
      simpl. now rewrite (bind_ok _ _ _ _ _ Hhead).
    + exists w'. simpl. now rewrite (bind_ok _ _ _ _ _ Hhead).
Qed.

Lemma construct_wrapper_call_bound (wr : construct_wrapper)
    (args : list value) (kw : kwargs) (bound : list (string * value))
    (w : World) :
  signature_bind (construct_f wr) args kw = inl bound ->
  construct_wrapper_call wr args kw w =
    match validate_arguments (construct_hints wr) bound w with
    | (Ok _, w') => lift_host (host_call (VFunction (construct_f wr)) args kw) w'
    | (Raise e, w') => (Raise e, w')
    end.
Proof.
  intros Hb. unfold construct_wrapper_call, lift_pure.
  unfold bind at 1. rewrite Hb. simpl. unfold bind.
  destruct (validate_arguments (construct_hints wr) bound w) as [[[] | e] w'];
    reflexivity.
Qed.

Lemma construct_time_validation_wraps (f : pyfunc) (wr : construct_wrapper) :
  construct_time_validation f = Ok wr -> construct_f wr = f.
Proof.
  unfold construct_time_validation. destruct (negb _); [discriminate |].
  destruct (get_type_hints f); [| discriminate].
  now intros [= <-].
Qed.

(** C5: let [wr] wrap [f] and let the call bind its arguments to [bound].
    When some bound argument hinted with a pipe type is, at its turn in the
    loop, no [IterDataPipe] instance or of a type that is no subtype of the
    hint's, the call raises [TypeError] in the state the loop had reached
    and [f] is not called.  When no argument does so, the call is the call
    of [f] on the original arguments. *)
Theorem construct_wrapper_validates (f : pyfunc) (wr : construct_wrapper)
    (args : list value) (kw : kwargs) (bound : list (string * value))
    (w : World) :
  construct_time_validation f = Ok wr ->
  signature_bind f args kw = inl bound ->
  (forall pre n v post ht w1,
     bound = pre ++ (n, v) :: post ->
     validate_arguments (construct_hints wr) pre w = (Ok tt, w1) ->
     construct_hints wr !! n = Some (HintDataPipe ht) ->
     isinstance_IterDataPipe v w1 = false \/
     (exists t, getattr_type v w1 = (Ok t, w1) /\ issubtype t ht = false) ->
     raises_TypeError (construct_wrapper_call wr args kw w) /\
     snd (construct_wrapper_call wr args kw w) = w1) /\
  ((forall pre n v post ht w1,
      bound = pre ++ (n, v) :: post ->
      validate_arguments (construct_hints wr) pre w = (Ok tt, w1) ->
      construct_hints wr !! n = Some (HintDataPipe ht) ->
      violates ht v w1 = false) ->
   exists w',
     validate_arguments (construct_hints wr) bound w = (Ok tt, w') /\
     construct_wrapper_call wr args kw w =
       lift_host (host_call (VFunction f) args kw) w').
Proof.
  intros Hwr Hb. pose proof (construct_time_validation_wraps f wr Hwr) as Hf.
  rewrite <- Hf in Hb. split.
  - intros pre n v post ht w1 -> Hpre Hh Hv. apply violates_true in Hv.
    destruct (validate_arguments_raises _ pre post n ht v w w1 Hpre Hh Hv)
      as (fmt & fa & Hr).
    rewrite (construct_wrapper_call_bound wr args kw _ w Hb), Hr.
    split; [eexists _, _ |]; reflexivity.
  - intros Hall.
    destruct (validate_arguments_passes _ bound w Hall) as (w' & Hok).
    exists w'. split; [exact Hok |].
    rewrite (construct_wrapper_call_bound wr args kw _ w Hb), Hok, Hf.
    reflexivity.
Qed.

Lemma set_type_lookup (l : loc) (t : value) (o : instance) (w : World) :
  instances w !! l = Some o ->
  instances (set_type l t w) !! l = Some {| class_of := class_of o; type := t |}.
Proof.
  intros Ho. unfold set_type. simpl. rewrite lookup_alter_eq, Ho. reflexivity.
Qed.

Lemma set_type_lookup_ne (l l' : loc) (t : value) (w : World) :
  l <> l' -> instances (set_type l t w) !! l' = instances w !! l'.
Proof. intros Hne. unfold set_type. simpl. now rewrite lookup_alter_ne. Qed.

(** C9: let the loop reach, in state [w1], a bound [IterDataPipe] argument
    whose type passes the subtype check and differs from the hint's.  The
    wrapper then overwrites the argument's [type] with a deep copy of the
    hint's and goes on in that state [w2]; whatever the rest of the loop
    raises leaves the call from the state it was raised in, nothing is
    rolled back; in particular, when the next argument fails validation the
    call raises [TypeError] and ends in [w2], the earlier argument's [type]
    changed. *)
Theorem construct_wrapper_not_atomic (f : pyfunc) (wr : construct_wrapper)
    (args : list value) (kw : kwargs) (pre post : list (string * value))
    (n : string) (l : loc) (o : instance) (ht : value) (w w1 : World) :
  construct_time_validation f = Ok wr ->
  signature_bind f args kw = inl (pre ++ (n, VInstance l) :: post) ->
  validate_arguments (construct_hints wr) pre w = (Ok tt, w1) ->
  construct_hints wr !! n = Some (HintDataPipe ht) ->
  instances w1 !! l = Some o ->
  issubclass_IterDataPipe (class_of o) = true ->
  issubtype (type o) ht = true ->
  type_ne (type o) ht = true ->
  let w2 := set_type l (deepcopy ht) w1 in
  validate_arguments (construct_hints wr) (pre ++ [(n, VInstance l)]) w =
    (Ok tt, w2) /\
  instances w2 !! l = Some {| class_of := class_of o; type := deepcopy ht |} /\
  (forall e w3,
     validate_arguments (construct_hints wr) post w2 = (Raise e, w3) ->
     construct_wrapper_call wr args kw w = (Raise e, w3)) /\
  (forall n' v' ht' post',
     post = (n', v') :: post' ->
     construct_hints wr !! n' = Some (HintDataPipe ht') ->
     violates ht' v' w2 = true ->
     raises_TypeError (construct_wrapper_call wr args kw w) /\
     snd (construct_wrapper_call wr args kw w) = w2).
Proof.
  intros Hwr Hb Hpre Hh Ho Hcls Hsub Hne w2.
  pose proof (construct_time_validation_wraps f wr Hwr) as Hf.
  rewrite <- Hf in Hb.
  assert (Hinst : isinstance_IterDataPipe (VInstance l) w1 = true).
  { unfold isinstance_IterDataPipe. now rewrite Ho. }
  assert (Hv : violates ht (VInstance l) w1 = false).
  { apply violates_false. split; [exact Hinst |]. exists (type o).
    split; [| exact Hsub]. unfold getattr_type. now rewrite Ho. }
  destruct (validate_argument_passes _ n ht (VInstance l) w1 Hh Hv)
    as (l0 & o0 & [= <-] & Ho0 & Hstep).
  rewrite Ho in Ho0. injection Ho0 as <-. rewrite Hne in Hstep.
  fold w2 in Hstep.
  assert (Hone : validate_arguments (construct_hints wr)
                   (pre ++ [(n, VInstance l)]) w = (Ok tt, w2)).
  { rewrite validate_arguments_app, Hpre. simpl.
    now rewrite (bind_ok _ _ _ _ _ Hstep). }
  assert (Hrest : construct_wrapper_call wr args kw w =
    match validate_arguments (construct_hints wr) post w2 with
    | (Ok _, w') => lift_host (host_call (VFunction (construct_f wr)) args kw) w'
    | (Raise e, w') => (Raise e, w')
    end).
  { rewrite (construct_wrapper_call_bound wr args kw _ w Hb).
    change (pre ++ (n, VInstance l) :: post)
      with (pre ++ [(n, VInstance l)] ++ post).
    rewrite app_assoc, validate_arguments_app, Hone. reflexivity. }
  split; [exact Hone |].
  split; [now apply set_type_lookup |].
  split.
  - intros e w3 Hr. now rewrite Hrest, Hr.
  - intros n' v' ht' post' -> Hh' Hv'.
    destruct (validate_arguments_raises _ [] post' n' ht' v' w2 w2
                eq_refl Hh' Hv') as (fmt & fa & Hr).
    simpl app in Hr. rewrite Hrest, Hr.
    split; [eexists _, _ |]; reflexivity.
Qed.

(** *** Arguments that do not alias

    The conditions above are evaluated when the loop reaches the argument.
    When no object is bound to two hinted arguments, the state in which the
    wrapper is called decides them. *)

Lemma violates_ext (ht v : value) (w w' : World) :
  (forall l, v = VInstance l -> instances w' !! l = instances w !! l) ->
  violates ht v w' = violates ht v w.
Proof.
  intros Hsame. unfold violates, isinstance_IterDataPipe, getattr_type.
  destruct v; try reflexivity. rewrite (Hsame l eq_refl).
  now destruct (instances w !! l).
Qed.

(** Retyping [l] changes the verdict on no argument of [bound] when [l] is
    not among its hinted pipes. *)
Lemma arg_violates_set_type (hints : gmap string hint)
    (bound : list (string * value)) (l : loc) (t : value) (w : World) :
  l ∉ hinted_pipes hints bound ->
  existsb (arg_violates hints (set_type l t w)) bound =
  existsb (arg_violates hints w) bound.
Proof.
  intros Hnot. induction bound as [| [n v] bound IH]; [reflexivity |].
  simpl in *.
  assert (Htail : l ∉ hinted_pipes hints bound).
  { destruct (hints !! n) as [[ht |] |]; try exact Hnot.
    destruct v; try exact Hnot.
    intros Hin. apply Hnot. apply elem_of_cons. now right. }
  rewrite (IH Htail). f_equal.
  unfold arg_violates. simpl.
  destruct (hints !! n) as [[ht |] |] eqn:Hh; try reflexivity.
  apply violates_ext. intros l' ->. apply set_type_lookup_ne.
  intros <-. apply Hnot. apply elem_of_cons. now left.
Qed.

(** Without aliasing the loop raises [TypeError] exactly when some
    argument breaks a condition in the state of the call. *)
Lemma validate_arguments_distinct (hints : gmap string hint)
    (bound : list (string * value)) :
  forall w, NoDup (hinted_pipes hints bound) ->
  if existsb (arg_violates hints w) bound
  then raises_TypeError (validate_arguments hints bound w)
  else exists w', validate_arguments hints bound w = (Ok tt, w').
Proof.
  induction bound as [| [n v] bound IH]; intros w Hnd.
  - simpl. exists w. reflexivity.
  - simpl existsb. unfold arg_violates at 1. simpl fst. simpl snd.
    destruct (hints !! n) as [[ht |] |] eqn:Hh.
    + destruct (violates ht v w) eqn:Hv; simpl orb.
      * destruct (validate_argument_violates hints n ht v w Hh Hv)
          as (fmt & fa & Hr).
        exists fmt, fa. simpl. now rewrite (bind_raise _ _ _ _ _ Hr).
      * destruct (validate_argument_passes hints n ht v w Hh Hv)
          as (l & o & -> & Ho & Hok).
        simpl in Hnd. rewrite Hh in Hnd. apply NoDup_cons in Hnd as [Hl Hnd].
        simpl validate_arguments. rewrite (bind_ok _ _ _ _ _ Hok).
        destruct (type_ne (type o) ht).
        -- rewrite <- (arg_violates_set_type hints bound l (deepcopy ht) w Hl).
           now apply IH.
        -- now apply IH.
    + simpl orb. simpl in Hnd. rewrite Hh in Hnd.
      simpl validate_arguments.
      rewrite (bind_ok _ _ _ _ _
                 (validate_argument_unhinted hints n v w
                    ltac:(intros ht; rewrite Hh; discriminate))).
      now apply IH.
    + simpl orb. simpl in Hnd. rewrite Hh in Hnd.
      simpl validate_arguments.
      rewrite (bind_ok _ _ _ _ _
                 (validate_argument_unhinted hints n v w
                    ltac:(intros ht; rewrite Hh; discriminate))).
      now apply IH.
Qed.

(** X12: the wrapper on arguments that do not alias (no object is bound
    to two arguments with a pipe hint): it raises [TypeError] when an
    argument breaks a condition in the state of the call, and otherwise
    calls [f]. *)
Lemma construct_wrapper_distinct (f : pyfunc) (wr : construct_wrapper)
    (args : list value) (kw : kwargs) (bound : list (string * value))
    (w : World) :
  construct_time_validation f = Ok wr ->
  signature_bind f args kw = inl bound ->
  NoDup (hinted_pipes (construct_hints wr) bound) ->
  if existsb (arg_violates (construct_hints wr) w) bound
  then raises_TypeError (construct_wrapper_call wr args kw w)
  else exists w', construct_wrapper_call wr args kw w =
                    lift_host (host_call (VFunction f) args kw) w'.
Proof.
  intros Hwr Hb Hnd.
  pose proof (construct_time_validation_wraps f wr Hwr) as Hf.
  rewrite <- Hf in Hb.
  rewrite (construct_wrapper_call_bound wr args kw bound w Hb).
  pose proof (validate_arguments_distinct (construct_hints wr) bound w Hnd)
    as Hloop.
  destruct (existsb (arg_violates (construct_hints wr) w) bound).
  - destruct Hloop as (fmt & fa & Hr).
    destruct (validate_arguments (construct_hints wr) bound w)
      as [[[] | e] w'] eqn:Hrun; simpl in Hr; [discriminate |].
    injection Hr as ->. exists fmt, fa. reflexivity.
  - destruct Hloop as (w' & Hok). rewrite Hok, Hf. now exists w'.
Qed.

(** ** Runtime checking *)

Lemma validated_next_passes (self d : value) (it it' : iterator)
    (w w' : World) :
  host_next it w = (inl (Some (d, it')), w') ->
  passes_validation self d w' = true ->
  validated_next self it w = (Ok (Some d), GenSuspended self it', w').
Proof.
  intros Hn Hp. unfold validated_next. rewrite Hn.
  unfold passes_validation in Hp.
  destruct (getattr_type self w') as [[t | e] w2]; [| discriminate].
  now rewrite Hp.
Qed.

Lemma validated_next_fails (self d t : value) (it it' : iterator)
    (w w' : World) :
  host_next it w = (inl (Some (d, it')), w') ->
  getattr_type self w' = (Ok t, w') ->
  issubtype_of_instance t d = false ->
  validated_next self it w =
    (Raise (TypeError "Expected an instance of subtype {}, but found {}"
              [FValue t; FValue d]), GenClosed, w').
Proof.
  intros Hn Ht Hf. unfold validated_next. now rewrite Hn, Ht, Hf.
Qed.

(** The loop over the wrapped iterator against the loop over the
    iterator it wraps, from a point between two elements. *)
Lemma drive_validated (self : value) (body : value -> World -> World)
    (n : nat) :
  forall (it : iterator) (w : World) tr e wf,
  drive iterator_next body n it w = (tr, e, wf) ->
  (Forall (fun dw => passes_validation self dw.1 dw.2 = true) tr ->
   drive generator_next body n (GenSuspended self it) w = (tr, e, wf)) /\
  (forall pre d wd post t,
     tr = pre ++ (d, wd) :: post ->
     Forall (fun dw => passes_validation self dw.1 dw.2 = true) pre ->
     getattr_type self wd = (Ok t, wd) ->
     issubtype_of_instance t d = false ->
     drive generator_next body n (GenSuspended self it) w =
       (pre,
        Failed (TypeError "Expected an instance of subtype {}, but found {}"
                  [FValue t; FValue d]),
        wd)).
Proof.
  induction n as [| n IH]; intros it w tr e wf Hrun.
  - simpl in Hrun. injection Hrun as <- <- <-. split; [reflexivity |].
    intros pre d wd post t Htr. now destruct pre.
  - cbn [drive] in *.
    assert (Hin : iterator_next it w =
                  let (s, w') := host_next it w in
                  match s with
                  | inl (Some (d, it')) => (Ok (Some d), it', w')
                  | inl None => (Ok None, it, w')
                  | inr e => (Raise (Propagated e), it, w')
                  end) by reflexivity.
    rewrite Hin in Hrun. clear Hin. unfold generator_next at 1 3.
    destruct (host_next it w) as [[[[d it'] |] | he] w'] eqn:Hnext.
    + destruct (drive iterator_next body n it' (body d w'))
        as [[ds e'] wf'] eqn:Hrest.
      injection Hrun as <- <- <-.
      destruct (IH it' (body d w') ds e' wf' Hrest) as [IHpass IHfail].
      split.
      * intros Hall. inversion Hall as [| dw tl Hd Htl]; subst. simpl in Hd.
        rewrite (validated_next_passes self d it it' w w' Hnext Hd).
        now rewrite (IHpass Htl).
      * intros pre d0 wd post t Htr Hpre Ht Hf.
        destruct pre as [| [d1 w1] pre].
        -- simpl in Htr. injection Htr as <- <- _.
           now rewrite (validated_next_fails self d t it it' w w' Hnext Ht Hf).
        -- simpl in Htr. injection Htr as <- <- Hds.
           inversion Hpre as [| dw tl Hd Htl]; subst. simpl in Hd.
           rewrite (validated_next_passes self d it it' w w' Hnext Hd).
           now rewrite (IHfail pre d0 wd post t eq_refl Htl Ht Hf).
    + injection Hrun as <- <- <-. unfold validated_next. rewrite Hnext.
      split; [reflexivity |].
      intros pre d wd post t Htr. now destruct pre.
    + injection Hrun as <- <- <-. unfold validated_next. rewrite Hnext.
      split; [reflexivity |].
      intros pre d wd post t Htr. now destruct pre.
Qed.

(** C6: let [wr] wrap the [__iter__] function [f], and let the loop over
    [f(self)] give the elements [tr] (each with the state it was produced
    in).  When every element passes [self.type.issubtype_of_instance], the
    loop over the wrapped iterator gives the same elements in the same
    order, ends the same way and leaves the same state.  When [d] is the
    first element that does not pass, the wrapped iterator gives exactly
    the elements before [d] and then raises [TypeError], in the state in
    which [d] was produced. *)
Theorem runtime_validation_yields (f : pyfunc) (wr : runtime_wrapper)
    (self : value) (it : iterator) (body : value -> World -> World)
    (n : nat) (w w1 wf : World) (tr : list (value * World)) (e : ending) :
  runtime_validation f = Ok wr ->
  host_iter f self w = (inl it, w1) ->
  drive iterator_next body (S n) it w1 = (tr, e, wf) ->
  (Forall (fun dw => passes_validation self dw.1 dw.2 = true) tr ->
   drive generator_next body (S n) (runtime_wrapper_call wr self) w =
     (tr, e, wf)) /\
  (forall pre d wd post t,
     tr = pre ++ (d, wd) :: post ->
     Forall (fun dw => passes_validation self dw.1 dw.2 = true) pre ->
     getattr_type self wd = (Ok t, wd) ->
     issubtype_of_instance t d = false ->
     drive generator_next body (S n) (runtime_wrapper_call wr self) w =
       (pre,
        Failed (TypeError "Expected an instance of subtype {}, but found {}"
                  [FValue t; FValue d]),
        wd)).
Proof.
  intros Hwr Hit Hrun.
  assert (Hf : runtime_f wr = f).
  { unfold runtime_validation in Hwr. destruct (negb _); [discriminate |].
    now injection Hwr as <-. }
  assert (Hstart : drive generator_next body (S n) (runtime_wrapper_call wr self) w
                   = drive generator_next body (S n) (GenSuspended self it) w1).
  { unfold runtime_wrapper_call. rewrite Hf. simpl. now rewrite Hit. }
  rewrite Hstart. exact (drive_validated self body (S n) it w1 tr e wf Hrun).
Qed.

End Properties.

(** * The decorators at work on the example host *)

Section Examples.
Import Example.
Existing Instance host.

Example functional_datapipe_registers_Mapper :
  functional_datapipe_call (functional_datapipe_init "map") (VClass Mapper) w0 =
    (Ok (VClass Mapper), set_functions (<["map" := VClass Mapper]> ∅) w0).
Proof.
  etransitivity.
  - apply (functional_datapipe_registers "map" Mapper w0). reflexivity.
  - reflexivity.
Defined.

Example functional_datapipe_rejects_Dataset :
  functional_datapipe_call (functional_datapipe_init "data") (VClass Dataset) w0 =
    (Raise (TypeError "`functional_datapipe` can only decorate IterDataPipe" []),
     w0).
Proof.
  apply (functional_datapipe_rejects "data" (VClass Dataset) w0).
  left. exists Dataset. split; reflexivity.
Defined.

Example non_deterministic_Mapper_under_determinism :
  raises_TypeError
    (non_deterministic_call 0 [] [] (set_determinism true w_class)).
Proof.
  apply (non_deterministic_class_call 0 Mapper [] []
           (set_determinism true w_class) eq_refl).
  reflexivity.
Defined.

Example deterministic_wrapper_fn_always :
  deterministic_wrapper_fn 0 [] [] (set_determinism true w_stored) =
    (Raise (TypeError
       "{} is non-deterministic with the inputs, but you set 'guaranteed_datapipes_determinism'. You can turn off determinism for this DataPipe if that is acceptable for your application"
       [FStr "Mapper"]), set_determinism true w_stored).
Proof.
  destruct (deterministic_wrapper_fn_checks 0 (VFunction always) (VBool true)
              Mapper [] [] (set_determinism true w_stored)
              (set_determinism true w_stored))
    as (_ & Hraise & _); [reflexivity | reflexivity | reflexivity |].
  apply Hraise; reflexivity.
Defined.

Example non_deterministic_call_on_5 :
  non_deterministic_call 0 [VInt 5] [] w_function =
    (Raise (AttributeError (VInt 5) "__name__"), w_function).
Proof.
  apply (non_deterministic_call_int 0 5 [] [] w_function eq_refl).
Defined.

(** [__init__(self, pipe0, pipe1)]: [pipe0] is an [int] pipe hinted [Any],
    [pipe1] an [int] pipe hinted [str].  The call fails on [pipe1], after
    [pipe0] was retyped. *)
Example construct_wrapper_rejects_other :
  raises_TypeError
    (construct_wrapper_call init_wrapper [VNone; VInstance 0; VInstance 1] []
       w_pipes) /\
  snd (construct_wrapper_call init_wrapper [VNone; VInstance 0; VInstance 1] []
         w_pipes) = set_type 0 (VStr "Any") w_pipes.
Proof.
  destruct (construct_wrapper_validates init_fn init_wrapper
              [VNone; VInstance 0; VInstance 1] []
              [("self", VNone); ("source", VInstance 0); ("other", VInstance 1)]
              w_pipes) as [Hraise _]; [reflexivity | reflexivity |].
  apply (Hraise [("self", VNone); ("source", VInstance 0)] "other"
           (VInstance 1) [] (VStr "str") (set_type 0 (VStr "Any") w_pipes));
    [reflexivity | reflexivity | reflexivity |].
  right. exists (VStr "int"). split; reflexivity.
Defined.

Example construct_wrapper_retypes_source :
  instances
    (snd (construct_wrapper_call init_wrapper
            [VNone; VInstance 0; VInstance 1] [] w_pipes)) !! 0 =
    Some {| class_of := Mapper; type := VStr "Any" |} /\
  instances w_pipes !! 0 = Some {| class_of := Mapper; type := VStr "int" |}.
Proof.
  destruct (construct_wrapper_not_atomic init_fn init_wrapper
              [VNone; VInstance 0; VInstance 1] []
              [("self", VNone)] [("other", VInstance 1)] "source" 0
              {| class_of := Mapper; type := VStr "int" |} (VStr "Any")
              w_pipes w_pipes)
    as (_ & Hnew & _ & Hnext);
    [reflexivity | reflexivity | reflexivity | reflexivity | reflexivity
    | reflexivity | reflexivity | reflexivity |].
  destruct (Hnext "other" (VInstance 1) (VStr "str") [])
    as [_ Hend]; [reflexivity | reflexivity | reflexivity |].
  rewrite Hend. split; [exact Hnew | reflexivity].
Defined.

(** [__iter__] yields 1, 2, x, 4 on an [int] pipe: the wrapped iterator
    yields 1 and 2 and raises on x. *)
Example runtime_validation_stops_at_x :
  drive generator_next (fun _ w => w) 4
    (runtime_wrapper_call {| runtime_f := iter_fn |} (VInstance 0)) w_pipes =
    ([(VInt 1, w_pipes); (VInt 2, w_pipes)],
     Failed (TypeError "Expected an instance of subtype {}, but found {}"
               [FValue (VStr "int"); FValue (VStr "x")]),
     w_pipes).
Proof.
  destruct (runtime_validation_yields (H := host) iter_fn
              {| runtime_f := iter_fn |}
              (VInstance 0) [VInt 1; VInt 2; VStr "x"; VInt 4]
              (fun _ w => w) 3 w_pipes w_pipes w_pipes
              [(VInt 1, w_pipes); (VInt 2, w_pipes); (VStr "x", w_pipes);
               (VInt 4, w_pipes)]
              Pending)
    as [_ Hfail]; [reflexivity | reflexivity | reflexivity |].
  apply (Hfail [(VInt 1, w_pipes); (VInt 2, w_pipes)] (VStr "x") w_pipes
           [(VInt 4, w_pipes)] (VStr "int")); try reflexivity.
  repeat constructor.
Defined.

(** All elements pass on a pipe of [Any]: the wrapped iterator is the
    iterator. *)
Example runtime_validation_Any :
  drive generator_next (fun _ w => w) 5
    (runtime_wrapper_call {| runtime_f := iter_fn |} (VInstance 0))
    (set_type 0 (VStr "Any") w_pipes) =
  drive iterator_next (fun _ w => w) 5 [VInt 1; VInt 2; VStr "x"; VInt 4]
    (set_type 0 (VStr "Any") w_pipes).
Proof. reflexivity. Qed.

(** The same [str] pipe bound to [source] (hinted [Any]) and to [other]
    (hinted [str]): in the state of the call it meets both hints, but it is
    retyped to [Any] at [source] and then fails at [other]. *)
Example construct_wrapper_same_pipe_twice :
  existsb (arg_violates (construct_hints init_wrapper) w_pipes)
    [("self", VNone); ("source", VInstance 2); ("other", VInstance 2)] = false /\
  raises_TypeError
    (construct_wrapper_call init_wrapper [VNone; VInstance 2; VInstance 2] []
       w_pipes).
Proof. split; [reflexivity | eexists _, _; reflexivity]. Qed.

(** What [decorated_Mapper] registers builds a [Mapper], and refuses to
    inside [with guaranteed_datapipes_determinism()]. *)
Example decorated_Mapper_builds :
  fst ((do m <- decorated_Mapper; call m [] []) w0) = Ok (VInstance 0).
Proof. reflexivity. Qed.

Example decorated_Mapper_refuses :
  raises_TypeError
    ((do m <- decorated_Mapper;
      with_guaranteed_datapipes_determinism (call m [] [])) w0) /\
  _determinism
    (snd ((do m <- decorated_Mapper;
           with_guaranteed_datapipes_determinism (call m [] [])) w0)) = false.
Proof. split; [eexists _, _; reflexivity | reflexivity]. Qed.

(** [deterministic_fn] returning [False] lets the pipe be built under
    determinism; one returning [7] is an error with or without it. *)
Example deterministic_wrapper_fn_never :
  fst ((do nd <- non_deterministic_init (VFunction never);
        do m <- call nd [VClass Shuffler] [];
        with_guaranteed_datapipes_determinism (call m [] [])) w0) =
  Ok (VInstance 0).
Proof. reflexivity. Qed.

Example deterministic_wrapper_fn_seven :
  (do nd <- non_deterministic_init (VFunction seven);
   do m <- call nd [VClass Shuffler] [];
   call m [] []) w0 =
  (Raise (TypeError
     "deterministic_fn of `non_deterministic` decorator is required to return a boolean value, but {} is found"
     [FTypeOf (VInt 7)]),
   snd (non_deterministic_call 0 [VClass Shuffler] []
          (snd (non_deterministic_init (VFunction seven) w0)))).
Proof. reflexivity. Qed.

End Examples.

(** * Further properties of the decorators *)

Section Further.
Context {H : Host}.

(** ** Functional API *)

Lemma functional_datapipe_call_accepts (fd : functional_datapipe) (v : value)
    (w : World) :
  functional_datapipe_call fd v w =
    if functional_datapipe_accepts v
    then match register_datapipe_as_function (name fd) v w with
         | (inl _, w') => (Ok v, w')
         | (inr e, w') => (Raise (Propagated e), w')
         end
    else (Raise (TypeError
            "`functional_datapipe` can only decorate IterDataPipe" []), w).
Proof.
  unfold functional_datapipe_call, functional_datapipe_accepts.
  assert (Hreg : (do _ <- ret tt;
                  do _ <- lift_host (register_datapipe_as_function (name fd) v);
                  ret v) w =
                 match register_datapipe_as_function (name fd) v w with
                 | (inl _, w') => (Ok v, w')
                 | (inr e, w') => (Raise (Propagated e), w')
                 end).
  { run_monad.
    destruct (register_datapipe_as_function (name fd) v w) as [[[] | e] w'];
      reflexivity. }
  destruct v;
    try (destruct (issubclass_IterDataPipe c); [exact Hreg | reflexivity]);
    rewrite <- negb_orb;
    match goal with
    | |- context [negb ?b] => destruct b
    end; first [exact Hreg | reflexivity].
Qed.

(** X2: when [functional_datapipe(name)(v)] returns, it returns [v] itself,
    the registration of [v] under [name] has run and succeeded, and [v] is a
    pipe class, a [non_deterministic] instance or a bound method of one. *)
Theorem functional_datapipe_returns_argument (fd : functional_datapipe)
    (v r : value) (w w' : World) :
  functional_datapipe_call fd v w = (Ok r, w') ->
  r = v /\
  register_datapipe_as_function (name fd) v w = (inl tt, w') /\
  ((exists c, v = VClass c /\ issubclass_IterDataPipe c = true) \/
   isinstance_non_deterministic v = true \/
   (exists s, getattr_self v = Some s /\ isinstance_non_deterministic s = true)).
Proof.
  intros Hcall. rewrite functional_datapipe_call_accepts in Hcall.
  destruct (functional_datapipe_accepts v) eqn:Hacc; [| discriminate].
  destruct (register_datapipe_as_function (name fd) v w) as [[[] | e] w2];
    [| discriminate].
  injection Hcall as <- <-. split; [reflexivity |]. split; [reflexivity |].
  unfold functional_datapipe_accepts in Hacc.
  destruct (getattr_self v) as [s |] eqn:Hs.
  - destruct v; try (left; eexists; split; [reflexivity | exact Hacc]);
      apply orb_true_iff in Hacc as [Hnd | Hnd]; eauto.
  - destruct v; try (left; eexists; split; [reflexivity | exact Hacc]);
      apply orb_true_iff in Hacc as [Hnd | Hnd]; eauto; discriminate.
Qed.

(** ** [non_deterministic] *)

(** X3: [non_deterministic(arg)] raises [TypeError] for a class that is no
    subclass of [IterDataPipe] and for an argument that is neither a class
    nor callable; no instance is allocated, the state is as before. *)
Theorem non_deterministic_init_rejects (arg : value) (w : World) :
  (exists c, arg = VClass c /\ issubclass_IterDataPipe c = false) \/
  (isinstance_Type arg = false /\ isinstance_Callable arg = false) ->
  raises_TypeError (non_deterministic_init arg w) /\
  snd (non_deterministic_init arg w) = w.
Proof.
  unfold non_deterministic_init, raises_TypeError.
  intros [(c & -> & Hsub) | [Hty Hcall]].
  - rewrite Hsub. simpl. split; [eexists _, _ |]; reflexivity.
  - destruct arg; try discriminate Hty; rewrite Hcall;
      (split; [eexists _, _ |]; reflexivity).
Qed.

(** X4: when [non_deterministic(arg)] succeeds, the instance lives at an
    address that was not in use, with [cls = arg] for a class and
    [deterministic_fn = arg] otherwise; every other instance, the flag, the
    pipes and the registry are untouched. *)
Theorem non_deterministic_init_allocates (arg v : value) (w w' : World) :
  non_deterministic_init arg w = (Ok v, w') ->
  exists l,
    v = VNonDeterministic l /\
    nd_objects w !! l = None /\
    nd_objects w' =
      <[l := {| cls := match arg with VClass c => Some c | _ => None end;
                deterministic_fn :=
                  match arg with VClass _ => None | _ => Some arg end |}]>
        (nd_objects w) /\
    (forall l', l' <> l -> nd_attrs l' w' = nd_attrs l' w) /\
    _determinism w' = _determinism w /\
    instances w' = instances w /\
    functions w' = functions w.
Proof.
  assert (Hnew : forall o v w',
            new_non_deterministic o w = (Ok v, w') ->
            exists l, v = VNonDeterministic l /\ nd_objects w !! l = None /\
              nd_objects w' = <[l := o]> (nd_objects w) /\
              (forall l', l' <> l -> nd_attrs l' w' = nd_attrs l' w) /\
              _determinism w' = _determinism w /\
              instances w' = instances w /\ functions w' = functions w).
  { intros o v0 w0 [= <- <-]. exists (fresh (dom (nd_objects w))).
    split; [reflexivity |]. split.
    - apply not_elem_of_dom. apply is_fresh.
    - split; [reflexivity |]. split; [| auto].
      intros l' Hne. unfold nd_attrs. simpl. now rewrite lookup_insert_ne. }
  unfold non_deterministic_init. intros Hinit.
  destruct arg;
    try (destruct (isinstance_Callable _); [now apply Hnew | discriminate]).
  destruct (negb (issubclass_IterDataPipe c)); [discriminate | now apply Hnew].
Qed.

(** X5: in the function form ([cls] still [None]) a call without
    positional arguments raises [IndexError], and a first argument that is
    a class outside [IterDataPipe] or a plain function raises [TypeError]
    with its name; the state is unchanged each time, [cls] stays [None]. *)
Theorem non_deterministic_call_rejections (l : loc) (args : list value)
    (kw : kwargs) (w : World) :
  cls (nd_attrs l w) = None ->
  non_deterministic_call l [] kw w =
    (Raise (IndexError "tuple index out of range"), w) /\
  (forall c, issubclass_IterDataPipe c = false ->
     non_deterministic_call l (VClass c :: args) kw w =
       (Raise (TypeError "Only `IterDataPipe` can be decorated, but {} is found"
                 [FStr (cls_name c)]), w)) /\
  (forall f,
     non_deterministic_call l (VFunction f :: args) kw w =
       (Raise (TypeError "Only `IterDataPipe` can be decorated, but {} is found"
                 [FStr (fn_name f)]), w)).
Proof.
  intros Hnone. split; [| split].
  - unfold non_deterministic_call, getattr_cls. unfold bind at 1.
    rewrite Hnone. reflexivity.
  - intros c Hsub. apply non_deterministic_call_refuses; try assumption.
    + unfold IterDataPipe_subclass. now rewrite Hsub.
    + reflexivity.
  - intros f. now apply non_deterministic_call_refuses.
Qed.

(** X6: in the function form a first argument that is a pipe class is
    stored: the call returns the bound method [deterministic_wrapper_fn],
    changes nothing but [cls] of this instance, and from then on a call of
    the instance is that of a decorated class: [TypeError] under the flag,
    the constructor otherwise. *)
Theorem non_deterministic_function_form (l : loc) (c : pyclass)
    (args : list value) (kw : kwargs) (w : World) :
  cls (nd_attrs l w) = None ->
  issubclass_IterDataPipe c = true ->
  exists w',
    non_deterministic_call l (VClass c :: args) kw w =
      (Ok (VMethod (VNonDeterministic l) "deterministic_wrapper_fn"), w') /\
    nd_objects w' =
      <[l := {| cls := Some c;
                deterministic_fn := deterministic_fn (nd_attrs l w) |}]>
        (nd_objects w) /\
    _determinism w' = _determinism w /\
    instances w' = instances w /\
    functions w' = functions w /\
    forall args' kw',
      non_deterministic_call l args' kw' w' =
        if _determinism w
        then (Raise (TypeError
          "{} is non-deterministic, but you set 'guaranteed_datapipes_determinism'. You can turn off determinism for this DataPipe if that is acceptable for your application"
          [FStr (cls_name c)]), w')
        else lift_host (host_call (VClass c) args' kw') w'.
Proof.
  intros Hnone Hsub.
  destruct (non_deterministic_call_stores l c args kw w Hnone Hsub)
    as (w' & Hcall & Hcls & _ & Hdet & Hinst).
  exists w'. split; [exact Hcall |].
  assert (Hw' : w' = set_nd_objects
            (<[l := {| cls := Some c;
                       deterministic_fn := deterministic_fn (nd_attrs l w) |}]>
               (nd_objects w)) w).
  { unfold non_deterministic_call, getattr_cls in Hcall.
    unfold bind at 1 in Hcall. rewrite Hnone in Hcall.
    unfold bind at 1 in Hcall. simpl in Hcall.
    unfold IterDataPipe_subclass in Hcall. rewrite Hsub in Hcall.
    unfold setattr_cls in Hcall. run_monad. now injection Hcall as <-. }
  split; [now rewrite Hw' |]. split; [exact Hdet |].
  split; [exact Hinst |]. split; [now rewrite Hw' |].
  intros args' kw'.
  rewrite (non_deterministic_call_class l c args' kw' w' Hcls), Hdet.
  reflexivity.
Qed.

(** X7: [deterministic_wrapper_fn] on an instance without
    [deterministic_fn] (one made from a class) raises [AttributeError] and
    changes nothing; when [deterministic_fn] itself raises, that exception
    leaves the call from the state [deterministic_fn] left, and neither the
    flag is consulted nor [self.cls] called. *)
Theorem deterministic_wrapper_fn_failures (l : loc) (args : list value)
    (kw : kwargs) (w : World) :
  (deterministic_fn (nd_attrs l w) = None ->
   deterministic_wrapper_fn l args kw w =
     (Raise (AttributeError (VNonDeterministic l) "deterministic_fn"), w)) /\
  (forall fn e w1,
     deterministic_fn (nd_attrs l w) = Some fn ->
     host_call fn args kw w = (inr e, w1) ->
     deterministic_wrapper_fn l args kw w = (Raise (Propagated e), w1)).
Proof.
  split.
  - intros Hno. unfold deterministic_wrapper_fn, getattr_deterministic_fn.
    unfold bind at 1. now rewrite Hno.
  - intros fn e w1 Hfn Hraise.
    unfold deterministic_wrapper_fn, getattr_deterministic_fn.
    unfold bind at 1. rewrite Hfn.
    unfold bind at 1. unfold lift_host at 1. now rewrite Hraise.
Qed.

(** ** The decorators together *)

Lemma set_determinism_restore (w : World) :
  set_determinism (_determinism w) (set_determinism true w) = w.
Proof. now destruct w. Qed.

Lemma non_deterministic_init_fresh (arg : value) (l : loc) (w w' : World) :
  non_deterministic_init arg w = (Ok (VNonDeterministic l), w') ->
  nd_objects w !! l = None.
Proof.
  assert (Hnew : forall o, new_non_deterministic o w = (Ok (VNonDeterministic l), w') ->
                           nd_objects w !! l = None).
  { intros o [= <- _]. apply not_elem_of_dom. apply is_fresh. }
  unfold non_deterministic_init.
  destruct arg as [| b | z | s | c | f | l0 | self nm | l0 | i];
    match goal with
    | |- (if ?b then _ else _) w = _ -> _ => destruct b
    end; first [discriminate | apply Hnew].
Qed.

(** X8: [non_deterministic(c)] followed by a call, for a pipe class [c]:
    the call raises [TypeError] when the flag is set and is the constructor
    of [c] otherwise, in the state that holds the new decorator instance. *)
Theorem non_deterministic_class_form (c : pyclass) (args : list value)
    (kw : kwargs) (w : World) :
  issubclass_IterDataPipe c = true ->
  exists l w1,
    non_deterministic_init (VClass c) w = (Ok (VNonDeterministic l), w1) /\
    (do nd <- non_deterministic_init (VClass c); call nd args kw) w =
      if _determinism w
      then (Raise (TypeError
        "{} is non-deterministic, but you set 'guaranteed_datapipes_determinism'. You can turn off determinism for this DataPipe if that is acceptable for your application"
        [FStr (cls_name c)]), w1)
      else lift_host (host_call (VClass c) args kw) w1.
Proof.
  intros Hsub.
  destruct (non_deterministic_init_class c w Hsub) as (l & w1 & Hinit & Hattrs & Hdet).
  exists l, w1. split; [exact Hinit |].
  rewrite (bind_ok _ _ _ _ _ Hinit). simpl.
  rewrite (non_deterministic_call_class l c args kw w1), Hdet; [reflexivity |].
  now rewrite Hattrs.
Qed.

(** X9: the decorators stack.  For a callable [fn] that is no class and a
    pipe class [c], [functional_datapipe(name)(non_deterministic(fn)(c))]
    registers the bound method [deterministic_wrapper_fn] of a fresh
    instance that holds [cls = c] and [deterministic_fn = fn], and returns
    that bound method. *)
Theorem decorators_stack (name : string) (fn : value) (c : pyclass)
    (w : World) :
  isinstance_Type fn = false ->
  isinstance_Callable fn = true ->
  issubclass_IterDataPipe c = true ->
  exists l w2,
    nd_objects w !! l = None /\
    nd_attrs l w2 = {| cls := Some c; deterministic_fn := Some fn |} /\
    (do nd <- non_deterministic_init fn;
     do m <- call nd [VClass c] [];
     functional_datapipe_call (functional_datapipe_init name) m) w =
      match register_datapipe_as_function name
              (VMethod (VNonDeterministic l) "deterministic_wrapper_fn") w2 with
      | (inl _, w') =>
          (Ok (VMethod (VNonDeterministic l) "deterministic_wrapper_fn"), w')
      | (inr e, w') => (Raise (Propagated e), w')
      end.
Proof.
  intros Hty Hcall Hsub.
  destruct (non_deterministic_init_function fn w Hty Hcall)
    as (l & w1 & Hinit & Hattrs & _).
  pose proof (non_deterministic_init_fresh fn l w w1 Hinit) as Hfresh.
  assert (Hnone : cls (nd_attrs l w1) = None) by now rewrite Hattrs.
  destruct (non_deterministic_call_stores l c [] [] w1 Hnone Hsub)
    as (w2 & Hstore & Hcls & Hfn & _).
  exists l, w2. split; [exact Hfresh |]. split.
  - rewrite Hattrs in Hfn. simpl in Hfn.
    destruct (nd_attrs l w2) as [c2 f2]. simpl in *. now subst.
  - rewrite (bind_ok _ _ _ _ _ Hinit). simpl call.
    rewrite (bind_ok _ _ _ _ _ Hstore).
    rewrite functional_datapipe_call_accepts. reflexivity.
Qed.

(** X10: inside [with guaranteed_datapipes_determinism():] the call of a
    decorated class raises [TypeError], whatever the flag was before; after
    the block the state is exactly the one before it: the flag is back and
    nothing was constructed. *)
Theorem with_determinism_blocks (l : loc) (c : pyclass) (args : list value)
    (kw : kwargs) (w : World) :
  cls (nd_attrs l w) = Some c ->
  with_guaranteed_datapipes_determinism (non_deterministic_call l args kw) w =
    (Raise (TypeError
       "{} is non-deterministic, but you set 'guaranteed_datapipes_determinism'. You can turn off determinism for this DataPipe if that is acceptable for your application"
       [FStr (cls_name c)]), w).
Proof.
  intros Hcls. rewrite with_determinism_unfold.
  rewrite (non_deterministic_call_class l c args kw (set_determinism true w))
    by exact Hcls.
  simpl. now rewrite set_determinism_restore.
Qed.

(** X11: the flag is set by the constructor, not by [__enter__].  A [with]
    statement is the constructor followed by a block on the new object; and
    when one object serves two blocks in a row, the second body runs under
    the prior flag [p], not under [True], since the first [__exit__] has
    restored it and [__enter__] does nothing. *)
Theorem context_manager_reuse {A B} (b1 : M A) (b2 : M B) (w : World) :
  with_guaranteed_datapipes_determinism b1 w =
    (do cm <- guaranteed_datapipes_determinism_init; with_context cm b1) w /\
  (do cm <- guaranteed_datapipes_determinism_init;
   do _ <- with_context cm b1;
   with_context cm b2) w =
    (let (r1, w1) := b1 (set_determinism true w) in
     match r1 with
     | Ok _ =>
         let (r2, w2) := b2 (set_determinism (_determinism w) w1) in
         (r2, set_determinism (_determinism w) w2)
     | Raise e => (Raise e, set_determinism (_determinism w) w1)
     end).
Proof.
  split; [reflexivity |].
  unfold guaranteed_datapipes_determinism_init, with_context,
    guaranteed_datapipes_determinism_enter,
    guaranteed_datapipes_determinism_exit.
  run_monad.
  destruct (b1 (set_determinism true w)) as [[a | e] w1]; [| reflexivity].
  destruct (b2 (set_determinism (_determinism w) w1)) as [[b | e] w2];
    reflexivity.
Qed.

(** ** Construct-time checking *)

Lemma validate_argument_effect (hints : gmap string hint) (n : string)
    (v : value) (w w' : World) (r : result unit) :
  validate_argument hints n v w = (r, w') ->
  w' = w \/
  exists l ht,
    v = VInstance l /\ hints !! n = Some (HintDataPipe ht) /\
    w' = set_type l (deepcopy ht) w.
Proof.
  unfold validate_argument.
  destruct (hints !! n) as [[ht |] |] eqn:Hh;
    [| intros [= _ <-]; now left | intros [= _ <-]; now left].
  unfold bind at 1. unfold get at 1.
  destruct (isinstance_IterDataPipe v w) eqn:Hinst; simpl;
    [| intros [= _ <-]; now left].
  destruct (isinstance_getattr_type v w Hinst) as (l & o & -> & _ & _ & Hty).
  rewrite (bind_ok _ _ _ _ _ Hty).
  destruct (negb (issubtype (type o) ht)); [intros [= _ <-]; now left |].
  rewrite (bind_ok _ _ _ _ _ Hty).
  destruct (type_ne (type o) ht); intros [= _ <-]; [right | now left].
  exists l, ht. auto.
Qed.

Lemma set_type_class (l l' : loc) (t : value) (w : World) :
  class_of <$> instances (set_type l t w) !! l' = class_of <$> instances w !! l'.
Proof.
  unfold set_type. simpl. destruct (decide (l = l')) as [<- | Hne].
  - rewrite lookup_alter_eq. now destruct (instances w !! l).
  - now rewrite lookup_alter_ne.
Qed.

Lemma validate_arguments_effect (hints : gmap string hint)
    (bound : list (string * value)) :
  forall (w w' : World) (r : result unit),
  validate_arguments hints bound w = (r, w') ->
  _determinism w' = _determinism w /\
  nd_objects w' = nd_objects w /\
  functions w' = functions w /\
  forall l,
    class_of <$> instances w' !! l = class_of <$> instances w !! l /\
    (l ∉ hinted_pipes hints bound -> instances w' !! l = instances w !! l).
Proof.
  induction bound as [| [n v] bound IH]; intros w w' r Hrun.
  - injection Hrun as _ <-. auto.
  - simpl in Hrun. unfold bind in Hrun.
    destruct (validate_argument hints n v w) as [r1 w1] eqn:Hhead.
    assert (Hstep : _determinism w1 = _determinism w /\
                    nd_objects w1 = nd_objects w /\
                    functions w1 = functions w /\
                    forall l,
                      class_of <$> instances w1 !! l =
                      class_of <$> instances w !! l /\
                      (l ∉ hinted_pipes hints ((n, v) :: bound) ->
                       instances w1 !! l = instances w !! l)).
    { destruct (validate_argument_effect hints n v w w1 r1 Hhead)
        as [-> | (l0 & ht & -> & Hh & ->)]; [auto |].
      repeat split; try reflexivity.
      - apply set_type_class.
      - intros Hnot. apply set_type_lookup_ne. intros ->. apply Hnot.
        simpl. rewrite Hh. apply elem_of_cons. now left. }
    destruct Hstep as (Hd & Hn & Hf & Hi).
    destruct r1 as [[] | e].
    + destruct (IH w1 w' r Hrun) as (Hd' & Hn' & Hf' & Hi').
      split; [congruence |]. split; [congruence |]. split; [congruence |].
      intros l. destruct (Hi l) as [Hc Hu]. destruct (Hi' l) as [Hc' Hu'].
      split; [congruence |].
      intros Hnot. rewrite Hu', Hu; [reflexivity | exact Hnot |].
      intros Hin. apply Hnot. simpl.
      destruct (hints !! n) as [[ht |] |]; try exact Hin.
      destruct v; try exact Hin. apply elem_of_cons. now right.
    + injection Hrun as _ <-. auto.
Qed.

(** X13: when the wrapper raises a [TypeError] of its own, the arguments
    were bound, [f] was not called, and the state differs from the state of
    the call in nothing but the [type] of pipes bound to hinted arguments:
    the flag, the [non_deterministic] instances, the registry, the class of
    every instance and every other instance are as before. *)
Theorem construct_wrapper_failure_frame (wr : construct_wrapper)
    (args : list value) (kw : kwargs) (w : World) :
  raises_TypeError (construct_wrapper_call wr args kw w) ->
  exists bound,
    signature_bind (construct_f wr) args kw = inl bound /\
    snd (construct_wrapper_call wr args kw w) =
      snd (validate_arguments (construct_hints wr) bound w) /\
    let w' := snd (construct_wrapper_call wr args kw w) in
    _determinism w' = _determinism w /\
    nd_objects w' = nd_objects w /\
    functions w' = functions w /\
    forall l,
      class_of <$> instances w' !! l = class_of <$> instances w !! l /\
      (l ∉ hinted_pipes (construct_hints wr) bound ->
       instances w' !! l = instances w !! l).
Proof.
  intros (fmt & fa & Hr).
  destruct (signature_bind (construct_f wr) args kw) as [bound | e] eqn:Hb.
  - exists bound. split; [reflexivity |].
    rewrite (construct_wrapper_call_bound wr args kw bound w Hb) in *.
    destruct (validate_arguments (construct_hints wr) bound w)
      as [[[] | e] w1] eqn:Hrun.
    + now apply lift_host_never_TypeError in Hr.
    + split; [reflexivity |]. simpl.
      exact (validate_arguments_effect _ bound w w1 _ Hrun).
  - unfold construct_wrapper_call, lift_pure in Hr. unfold bind at 1 in Hr.
    rewrite Hb in Hr. discriminate.
Qed.

(** X14: when every bound argument is one the loop only reads (it has no
    pipe hint, or it is a pipe whose type is a subtype of the hint's and
    does not differ from it), the wrapper changes nothing: the call is the
    call of [f] in the state of the call. *)
Theorem construct_wrapper_read_only (wr : construct_wrapper)
    (args : list value) (kw : kwargs) (bound : list (string * value))
    (w : World) :
  signature_bind (construct_f wr) args kw = inl bound ->
  forallb (arg_settled (construct_hints wr) w) bound = true ->
  construct_wrapper_call wr args kw w =
    lift_host (host_call (VFunction (construct_f wr)) args kw) w.
Proof.
  intros Hb Hall.
  rewrite (construct_wrapper_call_bound wr args kw bound w Hb).
  assert (Hrun : validate_arguments (construct_hints wr) bound w = (Ok tt, w)).
  { clear Hb. induction bound as [| [n v] bound IH]; [reflexivity |].
    simpl in Hall. apply andb_true_iff in Hall as [Hhead Htail].
    assert (Hstep : validate_argument (construct_hints wr) n v w = (Ok tt, w)).
    { unfold arg_settled in Hhead. simpl in Hhead.
      destruct (construct_hints wr !! n) as [[ht |] |] eqn:Hh.
      - apply andb_true_iff in Hhead as [Hv Hne].
        apply negb_true_iff in Hv.
        destruct (validate_argument_passes _ n ht v w Hh Hv)
          as (l & o & -> & Ho & Hok).
        unfold getattr_type in Hne. rewrite Ho in Hne.
        apply negb_true_iff in Hne. now rewrite Hne in Hok.
      - apply validate_argument_unhinted. intros ht. rewrite Hh. discriminate.
      - apply validate_argument_unhinted. intros ht. rewrite Hh. discriminate. }
    simpl. rewrite (bind_ok _ _ _ _ _ Hstep). now apply IH. }
  now rewrite Hrun.
Qed.

Lemma in_hinted_pipes (hints : gmap string hint)
    (bound : list (string * value)) (n : string) (l : loc) (ht : value) :
  (n, VInstance l) ∈ bound ->
  hints !! n = Some (HintDataPipe ht) ->
  l ∈ hinted_pipes hints bound.
Proof.
  intros Hin Hh. induction bound as [| [n' v'] bound IH].
  - now apply not_elem_of_nil in Hin.
  - apply elem_of_cons in Hin as [[= <- <-] | Hin]; simpl.
    + rewrite Hh. apply elem_of_cons. now left.
    + specialize (IH Hin).
      destruct (hints !! n') as [[ht' |] |]; try exact IH.
      destruct v'; try exact IH. apply elem_of_cons. now right.
Qed.

Lemma validate_arguments_retypes (hints : gmap string hint)
    (bound : list (string * value)) :
  forall w, NoDup (hinted_pipes hints bound) ->
  existsb (arg_violates hints w) bound = false ->
  exists w',
    validate_arguments hints bound w = (Ok tt, w') /\
    forall n l ht o,
      (n, VInstance l) ∈ bound ->
      hints !! n = Some (HintDataPipe ht) ->
      instances w !! l = Some o ->
      instances w' !! l =
        Some {| class_of := class_of o;
                type := if type_ne (type o) ht then deepcopy ht else type o |}.
Proof.
  induction bound as [| [n0 v0] bound IH]; intros w Hnd Hex.
  - exists w. split; [reflexivity |]. intros n l ht o Hin.
    now apply not_elem_of_nil in Hin.
  - simpl in Hex. apply orb_false_iff in Hex as [Hhead Htail].
    unfold arg_violates in Hhead. simpl in Hhead. simpl in Hnd.
    destruct (hints !! n0) as [[ht0 |] |] eqn:Hh0.
    + destruct (validate_argument_passes hints n0 ht0 v0 w Hh0 Hhead)
        as (l0 & o0 & -> & Ho0 & Hok).
      apply NoDup_cons in Hnd as [Hl0 Hnd].
      set (w1 := if type_ne (type o0) ht0
                 then set_type l0 (deepcopy ht0) w else w) in *.
      assert (Hex1 : existsb (arg_violates hints w1) bound = false).
      { unfold w1. destruct (type_ne (type o0) ht0); [| exact Htail].
        now rewrite arg_violates_set_type. }
      assert (Hl0' : instances w1 !! l0 =
                Some {| class_of := class_of o0;
                        type := if type_ne (type o0) ht0
                                then deepcopy ht0 else type o0 |}).
      { unfold w1. destruct (type_ne (type o0) ht0).
        - now apply set_type_lookup.
        - rewrite Ho0. now destruct o0. }
      assert (Hother : forall l, l <> l0 ->
                instances w1 !! l = instances w !! l).
      { intros l Hne. unfold w1. destruct (type_ne (type o0) ht0);
          [| reflexivity].
        apply set_type_lookup_ne. congruence. }
      destruct (IH w1 Hnd Hex1) as (w' & Hrun & Hpost).
      exists w'. split.
      * simpl. now rewrite (bind_ok _ _ _ _ _ Hok).
      * intros n l ht o Hin Hh Ho.
        apply elem_of_cons in Hin as [[= -> ->] | Hin].
        -- rewrite Hh0 in Hh. injection Hh as <-.
           rewrite Ho0 in Ho. injection Ho as <-.
           destruct (validate_arguments_effect hints bound w1 w' _ Hrun)
             as (_ & _ & _ & Hframe).
           destruct (Hframe l0) as [_ Hsame]. now rewrite (Hsame Hl0).
        -- apply (Hpost n l ht o Hin Hh).
           rewrite Hother; [exact Ho |].
           intros ->. apply Hl0. exact (in_hinted_pipes hints bound n l0 ht Hin Hh).
    + assert (Hok : validate_argument hints n0 v0 w = (Ok tt, w)).
      { apply validate_argument_unhinted. intros ht. rewrite Hh0. discriminate. }
      destruct (IH w Hnd Htail) as (w' & Hrun & Hpost).
      exists w'. split.
      * simpl. now rewrite (bind_ok _ _ _ _ _ Hok).
      * intros n l ht o Hin Hh Ho.
        apply elem_of_cons in Hin as [[= -> _] | Hin];
          [rewrite Hh0 in Hh; discriminate |].
        exact (Hpost n l ht o Hin Hh Ho).
    + assert (Hok : validate_argument hints n0 v0 w = (Ok tt, w)).
      { apply validate_argument_unhinted. intros ht. rewrite Hh0. discriminate. }
      destruct (IH w Hnd Htail) as (w' & Hrun & Hpost).
      exists w'. split.
      * simpl. now rewrite (bind_ok _ _ _ _ _ Hok).
      * intros n l ht o Hin Hh Ho.
        apply elem_of_cons in Hin as [[= -> _] | Hin];
          [rewrite Hh0 in Hh; discriminate |].
        exact (Hpost n l ht o Hin Hh Ho).
Qed.

(** X15: what [f] receives.  When the hinted pipes do not alias and no
    argument breaks a condition, [f] is called in a state in which every
    pipe bound to a hinted argument has the [type] it had when it did not
    differ from the hint's, and a deep copy of the hint's [type] when it
    did; every other instance is as before. *)
Theorem construct_wrapper_retypes (wr : construct_wrapper)
    (args : list value) (kw : kwargs) (bound : list (string * value))
    (w : World) :
  signature_bind (construct_f wr) args kw = inl bound ->
  NoDup (hinted_pipes (construct_hints wr) bound) ->
  existsb (arg_violates (construct_hints wr) w) bound = false ->
  exists w',
    construct_wrapper_call wr args kw w =
      lift_host (host_call (VFunction (construct_f wr)) args kw) w' /\
    (forall n l ht o,
       (n, VInstance l) ∈ bound ->
       construct_hints wr !! n = Some (HintDataPipe ht) ->
       instances w !! l = Some o ->
       instances w' !! l =
         Some {| class_of := class_of o;
                 type := if type_ne (type o) ht then deepcopy ht
                         else type o |}) /\
    (forall l, l ∉ hinted_pipes (construct_hints wr) bound ->
       instances w' !! l = instances w !! l).
Proof.
  intros Hb Hnd Hex.
  destruct (validate_arguments_retypes _ bound w Hnd Hex) as (w' & Hrun & Hpost).
  exists w'. split; [| split].
  - now rewrite (construct_wrapper_call_bound wr args kw bound w Hb), Hrun.
  - exact Hpost.
  - intros l Hnot.
    destruct (validate_arguments_effect _ bound w w' _ Hrun)
      as (_ & _ & _ & Hframe).
    now apply Hframe.
Qed.

(** ** Runtime checking *)

Lemma drive_validated_sound (self : value) (body : value -> World -> World)
    (n : nat) :
  forall (it : iterator) (w : World),
  Forall (fun dw => passes_validation self dw.1 dw.2 = true)
    (drive generator_next body n (GenSuspended self it) w).1.1 /\
  (drive generator_next body n (GenSuspended self it) w).1.1
    `prefix_of` (drive iterator_next body n it w).1.1.
Proof.
  induction n as [| n IH]; intros it w.
  - simpl. split; [constructor | reflexivity].
  - cbn [drive]. unfold generator_next at 1 3. unfold validated_next.
    assert (Hin : iterator_next it w =
                  let (s, w') := host_next it w in
                  match s with
                  | inl (Some (d, it')) => (Ok (Some d), it', w')
                  | inl None => (Ok None, it, w')
                  | inr e => (Raise (Propagated e), it, w')
                  end) by reflexivity.
    rewrite Hin. clear Hin.
    destruct (host_next it w) as [[[[d it'] |] | he] w'];
      [| simpl; split; [constructor | reflexivity]
       | simpl; split; [constructor | reflexivity]].
    destruct (IH it' (body d w')) as [IHall IHpre].
    destruct (drive iterator_next body n it' (body d w')) as [[ds e] wf].
    destruct (getattr_type self w') as [[t | e'] w2] eqn:Hty;
      [| simpl; split; [constructor | apply prefix_nil]].
    destruct (issubtype_of_instance t d) eqn:Hsub; simpl negb; cbv iota;
      [| simpl; split; [constructor | apply prefix_nil]].
    destruct (drive generator_next body n (GenSuspended self it') (body d w'))
      as [[ds' e2] wf2].
    simpl in *. split.
    + constructor; [| exact IHall]. simpl. unfold passes_validation.
      now rewrite Hty.
    + now apply prefix_cons.
Qed.

(** X16: the wrapped iterator never yields an element that fails the
    check: every element it yields passed
    [self.type.issubtype_of_instance] in the state in which it was
    produced; and what it yields is always an initial part of what the
    iterator of [f] yields to the same consumer. *)
Theorem runtime_wrapper_sound (wr : runtime_wrapper) (self : value)
    (body : value -> World -> World) (n : nat) (w : World) :
  Forall (fun dw => passes_validation self dw.1 dw.2 = true)
    (drive generator_next body n (runtime_wrapper_call wr self) w).1.1 /\
  forall it w1,
    host_iter (runtime_f wr) self w = (inl it, w1) ->
    (drive generator_next body n (runtime_wrapper_call wr self) w).1.1
      `prefix_of` (drive iterator_next body n it w1).1.1.
Proof.
  unfold runtime_wrapper_call. destruct n as [| n].
  - simpl. split; [constructor |]. intros it w1 _. reflexivity.
  - assert (Hstart : forall it w1,
              host_iter (runtime_f wr) self w = (inl it, w1) ->
              drive generator_next body (S n) (GenCreated (runtime_f wr) self) w =
              drive generator_next body (S n) (GenSuspended self it) w1).
    { intros it w1 Hit. simpl. now rewrite Hit. }
    split.
    + destruct (host_iter (runtime_f wr) self w) as [[it | e] w1] eqn:Hit.
      * rewrite (Hstart it w1 eq_refl).
        apply (drive_validated_sound self body (S n) it w1).
      * simpl. rewrite Hit. constructor.
    + intros it w1 Hit. rewrite (Hstart it w1 Hit).
      apply (drive_validated_sound self body (S n) it w1).
Qed.

(** X17: a wrapped iterator that has ended stays ended.  Whenever [next]
    on it does not yield (it raised, the [TypeError] of a failed check
    included, or the iterator of [f] was exhausted), the generator is
    closed; from then on [next] gives [StopIteration], changes nothing and
    does not touch the iterator of [f]. *)
Theorem generator_closes (g g' : generator) (w w' : World)
    (r : result (option value)) :
  generator_next g w = (r, g', w') ->
  (forall d, r <> Ok (Some d)) ->
  g' = GenClosed /\
  forall body n w2,
    drive generator_next body (S n) g' w2 = ([], Exhausted, w2).
Proof.
  intros Hnext Hr.
  assert (Hclosed : g' = GenClosed).
  { assert (Hval : forall self it w0,
              validated_next self it w0 = (r, g', w') -> g' = GenClosed).
    { intros self it w0. unfold validated_next.
      destruct (host_next it w0) as [[[[d it'] |] | he] w1];
        [| now intros [= _ <- _] | now intros [= _ <- _]].
      destruct (getattr_type self w1) as [[t | e] w2];
        [| now intros [= _ <- _]].
      destruct (negb (issubtype_of_instance t d)); [now intros [= _ <- _] |].
      intros [= <- _ _]. now destruct (Hr d). }
    unfold generator_next in Hnext. destruct g as [f self | self it |].
    - destruct (host_iter f self w) as [[it | e] w1];
        [now apply (Hval self it w1) | now injection Hnext as _ <- _].
    - now apply (Hval self it w).
    - now injection Hnext as _ <- _. }
  split; [exact Hclosed |]. now subst g'.
Qed.

End Further.

(** * The further properties on the example host *)

Section FurtherExamples.
Import Example.
Existing Instance host.

Example functional_datapipe_accepts_instance :
  functional_datapipe_call (functional_datapipe_init "nd")
    (VNonDeterministic 0) w_class =
    (Ok (VNonDeterministic 0),
     set_functions (<["nd" := VNonDeterministic 0]> ∅) w_class).
Proof.
  etransitivity.
  - apply (functional_datapipe_accepts_non_deterministic "nd"
             (VNonDeterministic 0) w_class).
    left. reflexivity.
  - reflexivity.
Defined.

Example functional_datapipe_returns_Mapper :
  register_datapipe_as_function "map" (VClass Mapper) w0 =
    (inl tt, set_functions (<["map" := VClass Mapper]> ∅) w0).
Proof.
  destruct (functional_datapipe_returns_argument
              (functional_datapipe_init "map") (VClass Mapper) (VClass Mapper)
              w0 (set_functions (<["map" := VClass Mapper]> ∅) w0))
    as (_ & Hreg & _); [reflexivity |].
  exact Hreg.
Defined.

Example non_deterministic_init_rejects_Dataset :
  raises_TypeError (non_deterministic_init (VClass Dataset) w0) /\
  snd (non_deterministic_init (VClass Dataset) w0) = w0.
Proof.
  apply (non_deterministic_init_rejects (VClass Dataset) w0).
  left. exists Dataset. split; reflexivity.
Defined.

Example non_deterministic_init_allocates_always :
  exists l, nd_objects w0 !! l = None /\
            nd_attrs l w_function =
              {| cls := None; deterministic_fn := Some (VFunction always) |}.
Proof.
  destruct (non_deterministic_init_allocates (VFunction always)
              (VNonDeterministic 0) w0 w_function)
    as (l & Hl & Hfresh & Hobjs & _); [reflexivity |].
  exists l. split; [exact Hfresh |].
  unfold nd_attrs. rewrite Hobjs. now rewrite lookup_insert_eq.
Defined.

Example non_deterministic_call_without_arguments :
  non_deterministic_call 0 [] [("cls", VClass Mapper)] w_function =
    (Raise (IndexError "tuple index out of range"), w_function).
Proof.
  destruct (non_deterministic_call_rejections 0 [] [("cls", VClass Mapper)]
              w_function) as [Hidx _]; [reflexivity |].
  exact Hidx.
Defined.

Example non_deterministic_function_form_Mapper :
  non_deterministic_call 0 [VClass Mapper] [] w_function =
    (Ok (VMethod (VNonDeterministic 0) "deterministic_wrapper_fn"), w_stored).
Proof.
  destruct (non_deterministic_function_form 0 Mapper [] [] w_function)
    as (w' & Hcall & _); [reflexivity | reflexivity |].
  unfold w_stored. now rewrite Hcall.
Defined.

Example non_deterministic_class_form_Mapper :
  exists l w1,
    non_deterministic_init (VClass Mapper) w0 = (Ok (VNonDeterministic l), w1) /\
    (do nd <- non_deterministic_init (VClass Mapper); call nd [] []) w0 =
      lift_host (host_call (VClass Mapper) [] []) w1.
Proof.
  destruct (non_deterministic_class_form Mapper [] [] w0)
    as (l & w1 & Hinit & Hrun); [reflexivity |].
  exists l, w1. split; [exact Hinit | exact Hrun].
Defined.

Example decorators_stack_Mapper :
  exists l w2,
    nd_objects w0 !! l = None /\
    nd_attrs l w2 =
      {| cls := Some Mapper; deterministic_fn := Some (VFunction always) |}.
Proof.
  destruct (decorators_stack "map" (VFunction always) Mapper w0)
    as (l & w2 & Hfresh & Hattrs & _); [reflexivity | reflexivity | reflexivity |].
  exists l, w2. split; [exact Hfresh | exact Hattrs].
Defined.

Example with_determinism_blocks_Mapper :
  with_guaranteed_datapipes_determinism (non_deterministic_call 0 [] []) w_class =
    (Raise (TypeError
       "{} is non-deterministic, but you set 'guaranteed_datapipes_determinism'. You can turn off determinism for this DataPipe if that is acceptable for your application"
       [FStr "Mapper"]), w_class).
Proof.
  apply (with_determinism_blocks 0 Mapper [] [] w_class). reflexivity.
Defined.

(** [__init__(self, pipe0, pipe2)]: an [int] pipe for [Any], a [str] pipe
    for [str]; two objects, no condition broken. *)
Example construct_wrapper_distinct_pipes :
  exists w',
    construct_wrapper_call init_wrapper [VNone; VInstance 0; VInstance 2] []
      w_pipes =
    lift_host (host_call (VFunction init_fn) [VNone; VInstance 0; VInstance 2] [])
      w'.
Proof.
  pose proof (construct_wrapper_distinct init_fn init_wrapper
                [VNone; VInstance 0; VInstance 2] []
                [("self", VNone); ("source", VInstance 0); ("other", VInstance 2)]
                w_pipes eq_refl eq_refl) as Hd.
  apply Hd. apply NoDup_cons. split; [| apply NoDup_singleton].
  intros Hin. apply list_elem_of_singleton in Hin. discriminate.
Defined.

Example construct_wrapper_failure_keeps_flag :
  _determinism
    (snd (construct_wrapper_call init_wrapper
            [VNone; VInstance 0; VInstance 1] [] w_pipes)) = false.
Proof.
  destruct (construct_wrapper_failure_frame init_wrapper
              [VNone; VInstance 0; VInstance 1] [] w_pipes)
    as (bound & _ & _ & Hd & _); [eexists _, _; reflexivity |].
  exact Hd.
Defined.

Example construct_wrapper_reads_settled :
  construct_wrapper_call init_wrapper [VNone; VInstance 0; VInstance 2] []
    (set_type 0 (VStr "Any") w_pipes) =
  lift_host (host_call (VFunction init_fn) [VNone; VInstance 0; VInstance 2] [])
    (set_type 0 (VStr "Any") w_pipes).
Proof.
  apply (construct_wrapper_read_only init_wrapper
           [VNone; VInstance 0; VInstance 2] []
           [("self", VNone); ("source", VInstance 0); ("other", VInstance 2)]
           (set_type 0 (VStr "Any") w_pipes)); reflexivity.
Defined.

Example construct_wrapper_retypes_pipe0 :
  exists w',
    construct_wrapper_call init_wrapper [VNone; VInstance 0; VInstance 2] []
      w_pipes =
    lift_host (host_call (VFunction init_fn) [VNone; VInstance 0; VInstance 2] [])
      w' /\
    instances w' !! 0 = Some {| class_of := Mapper; type := VStr "Any" |} /\
    instances w' !! 2 = Some {| class_of := Mapper; type := VStr "str" |}.
Proof.
  destruct (construct_wrapper_retypes init_wrapper
              [VNone; VInstance 0; VInstance 2] []
              [("self", VNone); ("source", VInstance 0); ("other", VInstance 2)]
              w_pipes) as (w' & Hrun & Hpost & _).
  - reflexivity.
  - apply NoDup_cons. split; [| apply NoDup_singleton].
    intros Hin. apply list_elem_of_singleton in Hin. discriminate.
  - reflexivity.
  - exists w'. split; [exact Hrun |]. split.
    + apply (Hpost "source" 0 (VStr "Any")
               {| class_of := Mapper; type := VStr "int" |});
        [| reflexivity | reflexivity].
      apply elem_of_cons. right. apply elem_of_cons. now left.
    + apply (Hpost "other" 2 (VStr "str")
               {| class_of := Mapper; type := VStr "str" |});
        [| reflexivity | reflexivity].
      apply elem_of_cons. right. apply elem_of_cons. right.
      apply elem_of_cons. now left.
Defined.

Example generator_closes_on_x :
  drive generator_next (fun _ w => w) 3 GenClosed w_pipes =
    ([], Exhausted, w_pipes).
Proof.
  destruct (generator_closes (H := host)
              (@GenSuspended host (VInstance 0) [VStr "x"])
              GenClosed w_pipes w_pipes
              (Raise (TypeError
                 "Expected an instance of subtype {}, but found {}"
                 [FValue (VStr "int"); FValue (VStr "x")])))
    as [_ Hstay]; [reflexivity | intros d; discriminate |].
  apply Hstay.
Defined.

End FurtherExamples.
